(** * Response cache of the conversational chat client (app.py)

    A shallow embedding of the caching core of [app.py]: the fingerprint
    function [get_cache_key], the persistent store ([load_cache_from_file],
    [save_cache_to_file], [cleanup_expired_cache], [get_cached_response],
    [set_cached_response], the counters of [show_cache_info]) and the cache
    integration of [ConversationalChatClient.send_chat_message].

    Conventions of the embedding.
    - A Python [str] is a sequence of Unicode code points, [list N].
    - [time.time()] is an integer number of seconds ([Z]); the rounding of
      binary floating point is not modelled.
    - The module-level dictionary [api_cache] is a [gmap] from keys to
      entries; the insertion order of a Python dictionary is not observable
      by any of the modelled operations.
    - A response is a [Dict] with string keys, as the annotations of
      [set_cached_response], [get_cached_response] and [send_chat_message]
      type it; [Optional[Dict]] is [option].
    - [hashlib.md5] and [json.dumps(..., sort_keys=True)] are library
      functions: they are written out (RFC 1321; the [ensure_ascii]
      encoder of the [json] module) so that keys can be computed.
    - [pickle] and the indented [json.dump] of the store are library codecs:
      they are parameters of the development (Section [Store]).
    - [requests.post] and [response.json()] are the remote side: a call is
      given the answer (or the exception) it meets. *)

From Stdlib Require Import ZArith NArith List Ascii String Lia Bool.
From stdpp Require Import gmap strings list fin_maps.

Set Warnings "-register-all".
Local Open Scope Z_scope.

(* ===================================================================== *)
(** ** Python strings *)
(* ===================================================================== *)

(** A [str] value: its code points, in order. *)
Abbreviation pystr := (list N).

(** A string literal of the source. *)
Fixpoint py (s : string) : pystr :=
  match s with
  | EmptyString => []
  | String a s' => N_of_ascii a :: py s'
  end.

Arguments py : simpl never.

(** The code points Python allows in a [str]: [0 .. 0x10FFFF]. *)
Definition is_codepoint (c : N) : bool := (c <? 1114112)%N.

(** Surrogate code points, [0xD800 .. 0xDFFF]. *)
Definition is_surrogate (c : N) : bool := ((55296 <=? c) && (c <=? 57343))%N.

(** A Unicode scalar value: a code point that is not a surrogate. *)
Definition is_scalar (c : N) : bool := is_codepoint c && negb (is_surrogate c).

(** [str(n)] for an integer: decimal digits, most significant first. *)
Fixpoint dec_digits (fuel : nat) (n : N) (acc : pystr) : pystr :=
  match fuel with
  | O => acc
  | S fuel' =>
      let acc' := (48 + n mod 10)%N :: acc in
      if (n <? 10)%N then acc' else dec_digits fuel' (n / 10)%N acc'
  end.

Definition str_of_int (z : Z) : pystr :=
  let n := Z.to_N (Z.abs z) in
  let ds := dec_digits (S (N.to_nat (N.log2 n))) n [] in
  if z <? 0 then 45%N :: ds else ds.

(** [s.encode()]: UTF-8; a surrogate raises [UnicodeEncodeError] ([None]). *)
Definition utf8_char (c : N) : option (list Z) :=
  let z := Z.of_N c in
  if (c <? 128)%N then Some [z]
  else if (c <? 2048)%N then
    Some [Z.lor 192 (Z.shiftr z 6); Z.lor 128 (Z.land z 63)]
  else if is_surrogate c then None
  else if (c <? 65536)%N then
    Some [Z.lor 224 (Z.shiftr z 12);
          Z.lor 128 (Z.land (Z.shiftr z 6) 63);
          Z.lor 128 (Z.land z 63)]
  else
    Some [Z.lor 240 (Z.shiftr z 18);
          Z.lor 128 (Z.land (Z.shiftr z 12) 63);
          Z.lor 128 (Z.land (Z.shiftr z 6) 63);
          Z.lor 128 (Z.land z 63)].

Fixpoint str_encode (s : pystr) : option (list Z) :=
  match s with
  | [] => Some []
  | c :: s' =>
      match utf8_char c, str_encode s' with
      | Some bs, Some rest => Some (bs ++ rest)
      | _, _ => None
      end
  end.

(* ===================================================================== *)
(** ** hashlib.md5 (RFC 1321), on 32-bit words held in [Z] *)
(* ===================================================================== *)

Module MD5.

Definition mask32 : Z := 4294967295.

Definition add32 (x y : Z) : Z := Z.land (x + y) mask32.

Definition not32 (x : Z) : Z := Z.lxor x mask32.

Definition rotl32 (x : Z) (s : Z) : Z :=
  Z.land (Z.lor (Z.shiftl x s) (Z.shiftr x (32 - s))) mask32.

(** Per-round left rotations. *)
Definition shifts : list Z :=
  [7; 12; 17; 22; 7; 12; 17; 22; 7; 12; 17; 22; 7; 12; 17; 22;
   5; 9; 14; 20; 5; 9; 14; 20; 5; 9; 14; 20; 5; 9; 14; 20;
   4; 11; 16; 23; 4; 11; 16; 23; 4; 11; 16; 23; 4; 11; 16; 23;
   6; 10; 15; 21; 6; 10; 15; 21; 6; 10; 15; 21; 6; 10; 15; 21].

(** [floor (2^32 * |sin (i + 1)|)] for [i = 0 .. 63]. *)
Definition sines : list Z :=
  [3614090360; 3905402710; 606105819; 3250441966;
   4118548399; 1200080426; 2821735955; 4249261313;
   1770035416; 2336552879; 4294925233; 2304563134;
   1804603682; 4254626195; 2792965006; 1236535329;
   4129170786; 3225465664; 643717713; 3921069994;
   3593408605; 38016083; 3634488961; 3889429448;
   568446438; 3275163606; 4107603335; 1163531501;
   2850285829; 4243563512; 1735328473; 2368359562;
   4294588738; 2272392833; 1839030562; 4259657740;
   2763975236; 1272893353; 4139469664; 3200236656;
   681279174; 3936430074; 3572445317; 76029189;
   3654602809; 3873151461; 530742520; 3299628645;
   4096336452; 1126891415; 2878612391; 4237533241;
   1700485571; 2399980690; 4293915773; 2240044497;
   1873313359; 4264355552; 2734768916; 1309151649;
   4149444226; 3174756917; 718787259; 3951481745].

Record regs := Regs { rA : Z; rB : Z; rC : Z; rD : Z }.

Definition init : regs :=
  Regs 1732584193 4023233417 2562383102 271733878.

(** One of the 64 operations on a block of sixteen words [m]. *)
Definition step (m : list Z) (r : regs) (i : nat) : regs :=
  let '(Regs a b c d) := r in
  let iz := Z.of_nat i in
  let '(f, g) :=
    if iz <? 16 then
      (Z.lor (Z.land b c) (Z.land (not32 b) d), iz)
    else if iz <? 32 then
      (Z.lor (Z.land d b) (Z.land (not32 d) c), (5 * iz + 1) mod 16)
    else if iz <? 48 then
      (Z.lxor (Z.lxor b c) d, (3 * iz + 5) mod 16)
    else
      (Z.lxor c (Z.lor b (not32 d)), (7 * iz) mod 16) in
  let f' := add32 (add32 (add32 f a) (nth i sines 0))
                  (nth (Z.to_nat g) m 0) in
  Regs d (add32 b (rotl32 f' (nth i shifts 0))) b c.

(** Little-endian 32-bit words of a byte sequence. *)
Fixpoint words (fuel : nat) (bs : list Z) : list Z :=
  match fuel, bs with
  | S fuel', b0 :: b1 :: b2 :: b3 :: rest =>
      (b0 + 256 * b1 + 65536 * b2 + 16777216 * b3) :: words fuel' rest
  | _, _ => []
  end.

Definition block (r : regs) (bytes64 : list Z) : regs :=
  let m := words 16 bytes64 in
  let '(Regs a b c d) := fold_left (step m) (seq 0 64) r in
  Regs (add32 (rA r) a) (add32 (rB r) b) (add32 (rC r) c) (add32 (rD r) d).

Fixpoint le_bytes (n : nat) (x : Z) : list Z :=
  match n with
  | O => []
  | S n' => (x mod 256) :: le_bytes n' (x / 256)
  end.

(** The message, one [0x80] byte, zeros up to 56 modulo 64, and the bit
    length as a 64-bit little-endian integer. *)
Definition pad (msg : list Z) : list Z :=
  let len := Z.of_nat (length msg) in
  let zeros := Z.to_nat ((55 - len) mod 64) in
  msg ++ 128 :: repeat 0 zeros ++ le_bytes 8 ((8 * len) mod 2 ^ 64).

Fixpoint blocks (fuel : nat) (r : regs) (bs : list Z) : regs :=
  match fuel with
  | O => r
  | S fuel' =>
      match bs with
      | [] => r
      | _ => blocks fuel' (block r (firstn 64 bs)) (skipn 64 bs)
      end
  end.

Definition digest (msg : list Z) : list Z :=
  let p := pad msg in
  let '(Regs a b c d) := blocks (length p) init p in
  le_bytes 4 a ++ le_bytes 4 b ++ le_bytes 4 c ++ le_bytes 4 d.

Definition hex_digit (n : Z) : N :=
  if n <? 10 then Z.to_N (48 + n) else Z.to_N (87 + n).

Definition hex_byte (b : Z) : pystr := [hex_digit (b / 16); hex_digit (b mod 16)].

(** [hashlib.md5(bytes).hexdigest()] *)
Definition hexdigest (msg : list Z) : pystr :=
  concat (map hex_byte (digest msg)).

End MD5.

(* ===================================================================== *)
(** ** json.dumps(..., sort_keys=True) of the fingerprint input *)
(* ===================================================================== *)

(** One conversation turn, the dictionary [{"role": ..., "content": ...}]
    built by [process_conversation_message]. *)
Record message := Message { role : pystr; content : pystr }.

Module Json.

(** Four lower-case hexadecimal digits, ['{0:04x}'.format(n)]. *)
Definition hex4 (n : N) : pystr :=
  let z := Z.of_N n in
  [MD5.hex_digit ((z / 4096) mod 16); MD5.hex_digit ((z / 256) mod 16);
   MD5.hex_digit ((z / 16) mod 16); MD5.hex_digit (z mod 16)].

(** [\uXXXX] *)
Definition uescape (n : N) : pystr := 92%N :: 117%N :: hex4 n.

(** The replacement of one character by [encode_basestring_ascii]
    ([ensure_ascii=True]): the short escapes of [ESCAPE_DCT], printable
    ASCII unchanged, [\uXXXX] below [0x10000], and a surrogate pair
    above. *)
Definition escape_char (c : N) : pystr :=
  if (c =? 34)%N then [92; 34]%N
  else if (c =? 92)%N then [92; 92]%N
  else if (c =? 8)%N then [92; 98]%N
  else if (c =? 12)%N then [92; 102]%N
  else if (c =? 10)%N then [92; 110]%N
  else if (c =? 13)%N then [92; 114]%N
  else if (c =? 9)%N then [92; 116]%N
  else if ((32 <=? c) && (c <=? 126))%N then [c]
  else if (c <? 65536)%N then uescape c
  else
    let n := (c - 65536)%N in
    let s1 := N.lor 55296 (N.land (N.shiftr n 10) 1023) in
    let s2 := N.lor 56320 (N.land n 1023) in
    uescape s1 ++ uescape s2.

Definition escape (s : pystr) : pystr := concat (map escape_char s).

(** A string value: quote, escaped characters, quote. *)
Definition dumps_str (s : pystr) : pystr := 34%N :: escape s ++ [34%N].

(** A message dictionary; [sort_keys=True] puts ["content"] before
    ["role"]. *)
Definition dumps_message (m : message) : pystr :=
  py "{" ++ dumps_str (py "content") ++ py ": " ++ dumps_str (content m)
    ++ py ", " ++ dumps_str (py "role") ++ py ": " ++ dumps_str (role m)
    ++ py "}".

(** The items of a non-empty list after the first, each behind [", "]. *)
Fixpoint dumps_tail (ms : list message) : pystr :=
  match ms with
  | [] => []
  | m :: ms' => py ", " ++ dumps_message m ++ dumps_tail ms'
  end.

Definition dumps_messages (ms : list message) : pystr :=
  match ms with
  | [] => py "[]"
  | m :: ms' => py "[" ++ dumps_message m ++ dumps_tail ms' ++ py "]"
  end.

(** [json.dumps({"messages": messages, "model": model}, sort_keys=True)];
    ["messages"] sorts before ["model"]. *)
Definition dumps_cache_data (messages : list message) (model : pystr) : pystr :=
  py "{" ++ dumps_str (py "messages") ++ py ": " ++ dumps_messages messages
    ++ py ", " ++ dumps_str (py "model") ++ py ": " ++ dumps_str model
    ++ py "}".

(** *** Reading the escaped text back

    The inverse direction, used to show which strings the escaping keeps
    apart. *)

Definition unhex_digit (d : N) : N :=
  if (d <? 58)%N then (d - 48)%N else (d - 87)%N.

Definition unhex4 (h1 h2 h3 h4 : N) : N :=
  (4096 * unhex_digit h1 + 256 * unhex_digit h2
   + 16 * unhex_digit h3 + unhex_digit h4)%N.

Definition is_high_surrogate (n : N) : bool :=
  ((55296 <=? n) && (n <=? 56319))%N.

(** The character behind a two-character escape. *)
Definition unescape_short (x : N) : option N :=
  if (x =? 34)%N then Some 34%N
  else if (x =? 92)%N then Some 92%N
  else if (x =? 98)%N then Some 8%N
  else if (x =? 102)%N then Some 12%N
  else if (x =? 110)%N then Some 10%N
  else if (x =? 114)%N then Some 13%N
  else if (x =? 116)%N then Some 9%N
  else None.

(** Reads one escaped character off the front of a text; a bare quote is
    not one. A [\uXXXX] in the high-surrogate range is read together
    with the [\uXXXX] that follows it. *)
Definition decode_token (s : pystr) : option (N * pystr) :=
  match s with
  | [] => None
  | c :: rest =>
      if (c =? 34)%N then None
      else if (c =? 92)%N then
        match rest with
        | [] => None
        | x :: rest1 =>
            if (x =? 117)%N then
              match rest1 with
              | h1 :: h2 :: h3 :: h4 :: rest2 =>
                  let n := unhex4 h1 h2 h3 h4 in
                  if is_high_surrogate n then
                    match rest2 with
                    | _ :: _ :: l1 :: l2 :: l3 :: l4 :: rest3 =>
                        Some ((65536 + (n - 55296) * 1024
                               + (unhex4 l1 l2 l3 l4 - 56320))%N, rest3)
                    | _ => None
                    end
                  else Some (n, rest2)
              | _ => None
              end
            else
              match unescape_short x with
              | Some c' => Some (c', rest1)
              | None => None
              end
        end
      else Some (c, rest)
  end.

End Json.

(** Strings made of Unicode scalar values only (no surrogate code point). *)
Definition scalar_str (s : pystr) : bool := forallb is_scalar s.

Definition scalar_message (m : message) : bool :=
  scalar_str (role m) && scalar_str (content m).

Definition scalar_messages (ms : list message) : bool := forallb scalar_message ms.

(** Text that [str.encode] maps to one byte per character. *)
Definition is_ascii (s : pystr) : bool := forallb (fun c => (c <? 128)%N) s.

#[global] Instance message_eq_dec : EqDecision message.
Proof. solve_decision. Defined.

(** The key as a function of the conversation and the model alone: the
    digest of the canonical text, one byte per character. *)
Definition fingerprint (messages : list message) (model : pystr) : pystr :=
  MD5.hexdigest (map Z.of_N (Json.dumps_cache_data messages model)).

(** [get_cache_key]: the MD5 hex digest of the canonical JSON text of
    [{"messages": messages, "model": model}]. The session identifier is a
    parameter that the body does not read. [None] stands for an exception
    raised by [str.encode]. *)
Definition get_cache_key (messages : list message) (session_id : option pystr)
    (model : pystr) : option pystr :=
  let cache_string := Json.dumps_cache_data messages model in
  match str_encode cache_string with
  | Some bytes => Some (MD5.hexdigest bytes)
  | None => None
  end.

(* ===================================================================== *)
(** ** Decoded JSON values, exceptions, HTTP *)
(* ===================================================================== *)

(** A decoded JSON value. A float is kept as its IEEE-754 bit pattern. *)
Inductive json :=
| JNull
| JBool (b : bool)
| JInt (z : Z)
| JFloat (bits : Z)
| JStr (s : pystr)
| JArr (items : list json)
| JObj (fields : list (pystr * json)).

(** A Python [Dict] with string keys, as the annotations of
    [set_cached_response], [get_cached_response] and [send_chat_message]
    type a response. *)
Abbreviation pydict := (list (pystr * json)).

(** [d.get(k)] *)
Fixpoint dict_get (k : pystr) (d : pydict) : option json :=
  match d with
  | [] => None
  | (k', v) :: d' => if bool_decide (k = k') then Some v else dict_get k d'
  end.

(** The two handler classes of [send_chat_message]: an exception caught by
    [except requests.exceptions.RequestException], and any other
    [Exception]. The payload is [str(e)]. *)
Inductive exn :=
| RequestException (msg : pystr)
| OtherException (msg : pystr).

(** A call either returns a value or raises. *)
Inductive outcome (A : Type) :=
| Returned (a : A)
| Raised (e : exn).
Arguments Returned {A} a.
Arguments Raised {A} e.

(** The JSON body of the POST to the chat endpoint. *)
Record request := Request {
  req_messages : list message;
  req_session_id : option pystr;
  req_model : pystr
}.

(** What [requests.post] hands back: the status, the raw body, and what
    [response.json()] does on that body (a dictionary, or an exception). *)
Record http_response := HttpResponse {
  status_code : Z;
  text : pystr;
  json_body : outcome pydict
}.

(* ===================================================================== *)
(** ** Cache configuration and entries *)
(* ===================================================================== *)

Definition CACHE_DURATION : Z := 3600.
Definition CACHE_FILE : string := "cache/api_cache.pkl".

(** The second path [save_cache_to_file] opens (a literal in the source). *)
Definition TEST_RESPONSE_FILE : string := "test_reponse.json".

(** The dictionary [{"response": response, "timestamp": time.time()}]. *)
Record entry := Entry { response : pydict; timestamp : Z }.

(** The dictionary [api_cache]. *)
Abbreviation store := (gmap pystr entry).

(** Calls that leave the process or rewrite the persisted state. *)
Inductive event :=
| SaveCalled (cache_data : store)
| HttpPost (payload : request).

Definition is_save (ev : event) : bool :=
  match ev with SaveCalled _ => true | HttpPost _ => false end.

Definition is_post (ev : event) : bool :=
  match ev with HttpPost _ => true | SaveCalled _ => false end.

(** The dictionary returned on every failure path of [send_chat_message]. *)
Definition error_dict (msg : pystr) : pydict :=
  [(py "error", JStr msg); (py "status", JStr (py "error"))].

(** A concrete codec on which the development can be run: a file holds a
    pickled store, the JSON text of a store, or bytes that do not
    unpickle. *)
Inductive demo_blob :=
| Pickled (c : store)
| JsonText (c : store)
| Garbage.

Definition demo_dumps (c : store) : demo_blob := Pickled c.

Definition demo_loads (b : demo_blob) : option store :=
  match b with
  | Pickled c => Some c
  | JsonText _ | Garbage => None
  end.

Definition demo_size (b : demo_blob) : Z :=
  match b with
  | Pickled c | JsonText c => Z.of_nat (size c)
  | Garbage => 1
  end.

(* ===================================================================== *)
(** ** The store, the file system and the client *)
(* ===================================================================== *)

Section Store.

(** File contents, and the library codecs that produce and read them. *)
Variable blob : Type.
(** [pickle.dump(cache_data, f)] *)
Variable pickle_dumps : store -> blob.
(** [pickle.load(f)]; [None] when it raises. *)
Variable pickle_loads : blob -> option store.
(** [json.dump(cache_data, test_file, indent=2)] *)
Variable json_dump : store -> blob.
(** [st_size] *)
Variable blob_size : blob -> Z.

(** The files that exist, and the paths on which [open] raises
    [OSError]. *)
Record filesystem := FileSystem {
  files : gmap string blob;
  denied : gset string
}.

(** The process state: the global [api_cache], the disk, and the calls
    made so far (oldest first). *)
Record world := World {
  api_cache : store;
  disk : filesystem;
  trace : list event
}.

(** Computations that read and write the process state and may raise. *)
Definition M (A : Type) : Type := world -> outcome A * world.

Definition ret {A} (a : A) : M A := fun w => (Returned a, w).

Definition bind {A B} (m : M A) (f : A -> M B) : M B :=
  fun w =>
    match m w with
    | (Returned a, w') => f a w'
    | (Raised e, w') => (Raised e, w')
    end.

Definition raise {A} (e : exn) : M A := fun w => (Raised e, w).

(** [try: body except Exception as e: handler e] *)
Definition try_except {A} (body : M A) (handler : exn -> M A) : M A :=
  fun w =>
    match body w with
    | (Returned a, w') => (Returned a, w')
    | (Raised e, w') => handler e w'
    end.

Notation "x <- c1 ;; c2" := (bind c1 (fun x => c2))
  (at level 100, c1 at next level, right associativity).
Notation "c1 ;; c2" := (bind c1 (fun _ => c2))
  (at level 100, right associativity).

Definition read_cache : M store := fun w => (Returned (api_cache w), w).

Definition write_cache (c : store) : M unit :=
  fun w => (Returned tt, World c (disk w) (trace w)).

Definition emit (ev : event) : M unit :=
  fun w => (Returned tt, World (api_cache w) (disk w) (trace w ++ [ev])).

(** [Path.exists()] *)
Definition path_exists (p : string) : M bool :=
  fun w => (Returned (bool_decide (is_Some (files (disk w) !! p))), w).

(** [open(p, 'rb')] and reading the whole file. *)
Definition read_file (p : string) : M blob :=
  fun w =>
    if bool_decide (p ∈ denied (disk w)) then
      (Raised (OtherException (py "PermissionError")), w)
    else
      match files (disk w) !! p with
      | Some b => (Returned b, w)
      | None => (Raised (OtherException (py "FileNotFoundError")), w)
      end.

(** [open(p, 'wb')] (or ['w']) and writing the whole content. *)
Definition write_file (p : string) (data : blob) : M unit :=
  fun w =>
    if bool_decide (p ∈ denied (disk w)) then
      (Raised (OtherException (py "PermissionError")), w)
    else
      (Returned tt,
       World (api_cache w)
             (FileSystem (<[p := data]> (files (disk w))) (denied (disk w)))
             (trace w)).

Definition pickle_load (data : blob) : M store :=
  match pickle_loads data with
  | Some cache_data => ret cache_data
  | None => raise (OtherException (py "UnpicklingError"))
  end.

(** [load_cache_from_file]: the inner computation yields [Some] on the
    [return cache_data] inside the [try], and [None] when control falls
    through to the final [return {}]. *)
Definition load_cache_from_file : M store :=
  loaded <- try_except
              (present <- path_exists CACHE_FILE ;;
               if (present : bool) then
                 data <- read_file CACHE_FILE ;;
                 cache_data <- pickle_load data ;;
                 ret (Some cache_data)
               else ret None)
              (fun _ => ret None) ;;
  match loaded with
  | Some cache_data => ret cache_data
  | None => ret ∅
  end.

(** [save_cache_to_file]: both writes sit in one [try]; any exception is
    logged and dropped. *)
Definition save_cache_to_file (cache_data : store) : M unit :=
  emit (SaveCalled cache_data) ;;
  try_except
    (write_file CACHE_FILE (pickle_dumps cache_data) ;;
     write_file TEST_RESPONSE_FILE (json_dump cache_data))
    (fun _ => ret tt).

(** The test [current_time - item["timestamp"] < CACHE_DURATION]. *)
Definition fresh (current_time : Z) (item : entry) : bool :=
  current_time - timestamp item <? CACHE_DURATION.

(** One iteration of the loop of [cleanup_expired_cache]. *)
Definition cleanup_step (current_time : Z) (cache_key : pystr)
    (cached_item : entry) (acc : store * nat) : store * nat :=
  let '(cleaned_cache, expired_count) := acc in
  if fresh current_time cached_item
  then (<[cache_key := cached_item]> cleaned_cache, expired_count)
  else (cleaned_cache, S expired_count).

Definition cleanup_loop (current_time : Z) (cache_data : store) : store * nat :=
  map_fold (cleanup_step current_time) (∅, 0%nat) cache_data.

Definition cleanup_expired_cache (current_time : Z) (cache_data : store) : M store :=
  let '(cleaned_cache, expired_count) := cleanup_loop current_time cache_data in
  (if (0 <? expired_count)%nat then save_cache_to_file cleaned_cache else ret tt) ;;
  ret cleaned_cache.

(** The two module-level assignments to [api_cache]. *)
Definition startup (now : Z) : M unit :=
  loaded <- load_cache_from_file ;;
  write_cache loaded ;;
  current <- read_cache ;;
  cleaned <- cleanup_expired_cache now current ;;
  write_cache cleaned.

Definition get_cached_response (now : Z) (cache_key : pystr) : M (option pydict) :=
  cache <- read_cache ;;
  match cache !! cache_key with
  | Some cached_data =>
      if fresh now cached_data then ret (Some (response cached_data))
      else
        write_cache (delete cache_key cache) ;;
        remaining <- read_cache ;;
        save_cache_to_file remaining ;;
        ret None
  | None => ret None
  end.

Definition set_cached_response (now : Z) (cache_key : pystr)
    (resp : pydict) : M unit :=
  cache <- read_cache ;;
  write_cache (<[cache_key := Entry resp now]> cache) ;;
  updated <- read_cache ;;
  save_cache_to_file updated.

(** What [show_cache_info] reports. *)
Inductive cache_info :=
| CacheEmpty (file_exists : bool)
| CacheStats (total active expired : nat) (file_size : Z).

Definition count_step (current_time : Z) (cache_key : pystr)
    (cache_data : entry) (acc : nat * nat) : nat * nat :=
  let '(active_entries, expired_entries) := acc in
  if fresh current_time cache_data
  then (S active_entries, expired_entries)
  else (active_entries, S expired_entries).

Definition count_entries (current_time : Z) (cache : store) : nat * nat :=
  map_fold (count_step current_time) (0%nat, 0%nat) cache.

Definition stat_size (p : string) : M Z :=
  fun w =>
    match files (disk w) !! p with
    | Some b => (Returned (blob_size b), w)
    | None => (Raised (OtherException (py "FileNotFoundError")), w)
    end.

Definition show_cache_info (now : Z) : M cache_info :=
  cache <- read_cache ;;
  let cache_count := size cache in
  if (cache_count =? 0)%nat then
    file_exists <- path_exists CACHE_FILE ;;
    ret (CacheEmpty file_exists)
  else
    let '(active_entries, expired_entries) := count_entries now cache in
    cache_size <- try_except
                    (present <- path_exists CACHE_FILE ;;
                     if (present : bool) then stat_size CACHE_FILE else ret 0)
                    (fun _ => ret 0) ;;
    ret (CacheStats cache_count active_entries expired_entries cache_size).

(** *** The chat client *)

Definition lift {A} (o : outcome A) : M A :=
  match o with
  | Returned a => ret a
  | Raised e => raise e
  end.

(** [requests.post(self.chat_endpoint, json=payload, timeout=30)]; [net]
    is the remote side: what a POST of a payload comes back with (a
    response, or a transport failure such as a timeout). *)
Definition requests_post (net : request -> outcome http_response)
    (payload : request) : M http_response :=
  emit (HttpPost payload) ;;
  lift (net payload).

(** [response.json()] *)
Definition response_json (r : http_response) : M pydict := lift (json_body r).

Definition cache_key_of (messages : list message) (session_id : option pystr)
    (model : pystr) : M pystr :=
  match get_cache_key messages session_id model with
  | Some k => ret k
  | None => raise (OtherException (py "UnicodeEncodeError"))
  end.

(** The [try] block of [send_chat_message]. [t_lookup] and [t_store] are
    the readings of [time.time()] inside [get_cached_response] and
    [set_cached_response]. The first [response_json] is the argument of
    the [logger.debug] f-string, which is evaluated before the status is
    tested. (The earlier [json.dumps(payload, indent=2)] of the other
    [logger.debug] cannot raise on a payload of strings and is left
    out.) *)
Definition send_chat_message_try (net : request -> outcome http_response)
    (t_lookup t_store : Z) (messages : list message)
    (session_id : option pystr) (model : pystr) : M pydict :=
  let payload := Request messages session_id model in
  cache_key <- cache_key_of messages session_id model ;;
  cached_response <- get_cached_response t_lookup cache_key ;;
  match cached_response with
  | Some cached => ret cached
  | None =>
      resp <- requests_post net payload ;;
      response_json resp ;;
      if status_code resp =? 200 then
        body <- response_json resp ;;
        set_cached_response t_store cache_key body ;;
        response_json resp
      else
        ret (error_dict (py "API request failed: "
                           ++ str_of_int (status_code resp)
                           ++ py " - " ++ text resp))
  end.

(** The two [except] clauses, in source order. *)
Definition send_chat_message_except (e : exn) : M pydict :=
  match e with
  | RequestException msg =>
      ret (error_dict (py "Network error occurred: " ++ msg))
  | OtherException msg =>
      ret (error_dict (py "An error occurred: " ++ msg))
  end.

Definition send_chat_message (net : request -> outcome http_response)
    (t_lookup t_store : Z) (messages : list message)
    (session_id : option pystr) (model : pystr) : M pydict :=
  try_except
    (send_chat_message_try net t_lookup t_store messages session_id model)
    send_chat_message_except.

(** *** Derived notions used in the statements *)

(** The disk after [save_cache_to_file cache_data]: nothing when the cache
    file cannot be opened, the pickle alone when the second [open] fails,
    both files otherwise. *)
Definition disk_after_save (cache_data : store) (d : filesystem) : filesystem :=
  if bool_decide (CACHE_FILE ∈ denied d) then d
  else if bool_decide (TEST_RESPONSE_FILE ∈ denied d) then
    FileSystem (<[CACHE_FILE := pickle_dumps cache_data]> (files d)) (denied d)
  else
    FileSystem (<[TEST_RESPONSE_FILE := json_dump cache_data]>
                  (<[CACHE_FILE := pickle_dumps cache_data]> (files d)))
               (denied d).

(** The world after a call of [save_cache_to_file cache_data]. *)
Definition world_after_save (cache_data : store) (w : world) : world :=
  World (api_cache w) (disk_after_save cache_data (disk w))
        (trace w ++ [SaveCalled cache_data]).

(** The world after the POST of [payload] has been issued. *)
Definition world_after_post (payload : request) (w : world) : world :=
  World (api_cache w) (disk w) (trace w ++ [HttpPost payload]).

(** The three counters of a report; the empty report shows zero entries. *)
Definition info_counts (i : cache_info) : nat * (nat * nat) :=
  match i with
  | CacheEmpty _ => (0%nat, (0%nat, 0%nat))
  | CacheStats total active expired _ => (total, (active, expired))
  end.

(** One invocation of [send_chat_message] with its environment. *)
Record call := Call {
  call_net : request -> outcome http_response;
  call_t_lookup : Z;
  call_t_store : Z;
  call_messages : list message;
  call_session_id : option pystr;
  call_model : pystr
}.

Definition run_call (c : call) (w : world) : outcome pydict * world :=
  send_chat_message (call_net c) (call_t_lookup c) (call_t_store c)
    (call_messages c) (call_session_id c) (call_model c) w.

(** The world after a sequence of invocations, in order. *)
Definition run_calls (cs : list call) (w : world) : world :=
  fold_left (fun w c => snd (run_call c w)) cs w.

(** The decoded body a call caches when its POST is answered with status
    200 and a decodable body. *)
Definition success_body (c : call) : option pydict :=
  match call_net c (Request (call_messages c) (call_session_id c) (call_model c)) with
  | Returned resp =>
      if status_code resp =? 200 then
        match json_body resp with
        | Returned body => Some body
        | Raised _ => None
        end
      else None
  | Raised _ => None
  end.

(** *** Clearing the cache *)

(** [str(e)] *)
Definition exn_message (e : exn) : pystr :=
  match e with
  | RequestException msg => msg
  | OtherException msg => msg
  end.

(** [Path.unlink()]: removes the file; raises when the path is one on which
    the file system refuses access, or when there is no such file. *)
Definition unlink (p : string) : M unit :=
  fun w =>
    if bool_decide (p ∈ denied (disk w)) then
      (Raised (OtherException (py "PermissionError")), w)
    else
      match files (disk w) !! p with
      | Some _ =>
          (Returned tt,
           World (api_cache w)
                 (FileSystem (delete p (files (disk w))) (denied (disk w)))
                 (trace w))
      | None => (Raised (OtherException (py "FileNotFoundError")), w)
      end.

(** What [clear_cache] tells the user: the number of entries removed, or
    the text of the exception it caught. *)
Inductive clear_report :=
| CacheCleared (cache_count : nat)
| ClearError (msg : pystr).

(** [clear_cache]: [api_cache.clear()], then the cache file is removed if
    it exists; the whole body sits in one [try]. *)
Definition clear_cache : M clear_report :=
  try_except
    (cache <- read_cache ;;
     let cache_count := size cache in
     write_cache ∅ ;;
     present <- path_exists CACHE_FILE ;;
     (if (present : bool) then unlink CACHE_FILE else ret tt) ;;
     ret (CacheCleared cache_count))
    (fun e => ret (ClearError (exn_message e))).

(** *** The model list *)

Definition DEFAULT_MODEL : pystr := py "deepseek-r1-distill-llama-70b".

(** The mapping [{DEFAULT_MODEL: DEFAULT_MODEL}]. *)
Definition fallback_models : json := JObj [(DEFAULT_MODEL, JStr DEFAULT_MODEL)].

(** The dictionary returned on every failure path of
    [get_available_models]. *)
Definition models_error (msg : pystr) : pydict :=
  [(py "error", JStr msg); (py "models", fallback_models)].

(** The [try] block of [get_available_models]; [answer] is what
    [requests.get(self.models_endpoint, timeout=10)] meets. *)
Definition get_available_models_try (answer : outcome http_response)
    : outcome pydict :=
  match answer with
  | Raised e => Raised e
  | Returned resp =>
      if status_code resp =? 200 then json_body resp
      else Returned (models_error (py "Failed to fetch models: "
                                     ++ str_of_int (status_code resp)
                                     ++ py " - " ++ text resp))
  end.

Definition get_available_models (answer : outcome http_response) : pydict :=
  match get_available_models_try answer with
  | Returned d => d
  | Raised (RequestException msg) =>
      models_error (py "Network error fetching models: " ++ msg)
  | Raised (OtherException msg) =>
      models_error (py "Error fetching models: " ++ msg)
  end.

(** [d.get(k, default)] *)
Definition dict_get_default (k : pystr) (default : json) (d : pydict) : json :=
  match dict_get k d with
  | Some v => v
  | None => default
  end.

(** The truth value Python gives a decoded JSON value in [if v:]. A float
    is false exactly when it is [0.0] or [-0.0]. *)
Definition truthy (v : json) : bool :=
  match v with
  | JNull => false
  | JBool b => b
  | JInt z => negb (z =? 0)
  | JFloat bits => negb ((bits =? 0) || (bits =? 9223372036854775808))
  | JStr s => match s with [] => false | _ => true end
  | JArr items => match items with [] => false | _ => true end
  | JObj fields => match fields with [] => false | _ => true end
  end.

(** [start_chat]: [models_response.get("models", {DEFAULT_MODEL:
    DEFAULT_MODEL})], and the test [if models_response.get("error")] that
    decides whether a warning is shown. *)
Definition available_models (models_response : pydict) : json :=
  dict_get_default (py "models") fallback_models models_response.

Definition models_warning (models_response : pydict) : bool :=
  match dict_get (py "error") models_response with
  | Some v => truthy v
  | None => false
  end.

(** *** Streaming a response *)

(** [s.split(' ')]: the pieces between the occurrences of the separator;
    never an empty list. *)
Fixpoint split_on (sep : N) (s : pystr) : list pystr :=
  match s with
  | [] => [[]]
  | c :: s' =>
      if (c =? sep)%N then [] :: split_on sep s'
      else
        match split_on sep s' with
        | w :: ws => (c :: w) :: ws
        | [] => [[c]]
        end
  end.

(** The name Python prints for the type of a decoded JSON value. *)
Definition type_name (v : json) : pystr :=
  match v with
  | JNull => py "NoneType"
  | JBool _ => py "bool"
  | JInt _ => py "int"
  | JFloat _ => py "float"
  | JStr _ => py "str"
  | JArr _ => py "list"
  | JObj _ => py "dict"
  end.

(** [message_content.split(' ')]: only a [str] has the method; on any
    other value the attribute lookup raises [AttributeError]. *)
Definition split_method (v : json) : outcome (list pystr) :=
  match v with
  | JStr s => Returned (split_on 32 s)
  | _ => Raised (OtherException
                   (py "'" ++ type_name v ++ py "' object has no attribute 'split'"))
  end.

(** The tokens of the streaming loop: the first word, then each further
    word behind a space. *)
Definition stream_words (words : list pystr) : list pystr :=
  match words with
  | [] => []
  | word :: rest => word :: map (fun word' => 32%N :: word') rest
  end.

(** [response.get("status") == "error"] *)
Definition status_is_error (resp : pydict) : bool :=
  match dict_get (py "status") resp with
  | Some (JStr s) => bool_decide (s = py "error")
  | _ => false
  end.

(** [str(v)] of a value that is not a [str] (a library function). *)
Variable str_of_value : json -> pystr.

(** What an f-string puts for [{v}]. *)
Definition format_value (v : json) : pystr :=
  match v with
  | JStr s => s
  | _ => str_of_value v
  end.

(** The [try] block of [send_chat_message_stream]. [msg] tells whether a
    message to stream into was passed; the result is the returned
    dictionary with the tokens handed to [msg.stream_token], in order
    (which is taken not to raise). The pacing [asyncio.sleep] is left
    out. *)
Definition send_chat_message_stream_try
    (net : request -> outcome http_response) (t_lookup t_store : Z)
    (messages : list message) (session_id : option pystr) (model : pystr)
    (msg : bool) : world -> outcome (pydict * list pystr) * world :=
  fun w =>
    match send_chat_message net t_lookup t_store messages session_id model w with
    | (Raised e, w') => (Raised e, w')
    | (Returned resp, w') =>
        if msg && negb (status_is_error resp) then
          let message_content :=
            dict_get_default (py "message") (JStr []) resp in
          if truthy message_content then
            match split_method message_content with
            | Returned words => (Returned (resp, stream_words words), w')
            | Raised e => (Raised e, w')
            end
          else (Returned (resp, [py "No message content received."]), w')
        else if msg && status_is_error resp then
          (Returned
             (resp,
              [[10060%N] ++ py " Error: "
                 ++ format_value
                      (dict_get_default (py "error")
                         (JStr (py "Unknown error occurred")) resp)]),
           w')
        else (Returned (resp, []), w')
    end.

Definition send_chat_message_stream
    (net : request -> outcome http_response) (t_lookup t_store : Z)
    (messages : list message) (session_id : option pystr) (model : pystr)
    (msg : bool) : world -> (pydict * list pystr) * world :=
  fun w =>
    match send_chat_message_stream_try net t_lookup t_store messages
            session_id model msg w with
    | (Returned r, w') => (r, w')
    | (Raised e, w') =>
        let error_msg := py "An error occurred: " ++ exn_message e in
        ((error_dict error_msg, if msg then [error_msg] else []), w')
    end.

(** The number of occurrences of a character in a string. *)
Fixpoint count_char (c : N) (s : pystr) : nat :=
  match s with
  | [] => 0%nat
  | x :: s' => ((if (x =? c)%N then 1 else 0) + count_char c s')%nat
  end.

(** The characters of [hexdigest()]: [0-9] and [a-f]. *)
Definition is_lower_hex (c : N) : bool :=
  (((48 <=? c) && (c <=? 57)) || ((97 <=? c) && (c <=? 102)))%N.

(** A process started on the disk another one left: nothing cached yet,
    nothing called yet. *)
Definition restarted (w : world) : world := World ∅ (disk w) [].

(* =================================================================== *)
(** *** The canonical text: ASCII, and read back without loss *)
(* =================================================================== *)

Lemma forallb_below (P : N -> bool) (n : N) :
  forallb P (map N.of_nat (seq 0 (N.to_nat n))) = true ->
  forall x : N, (x < n)%N -> P x = true.
Proof.
  intros H x Hx. rewrite forallb_forall in H. apply H.
  apply in_map_iff. exists (N.to_nat x). split; [ lia | ].
  apply in_seq. lia.
Qed.

Lemma unhex_hex_digit (d : Z) :
  0 <= d < 16 -> Json.unhex_digit (MD5.hex_digit d) = Z.to_N d.
Proof.
  intros Hd. unfold Json.unhex_digit, MD5.hex_digit.
  destruct (Z.ltb_spec d 10) as [Hlt | Hge].
  - destruct (N.ltb_spec (Z.to_N (48 + d)) 58); lia.
  - destruct (N.ltb_spec (Z.to_N (87 + d)) 58); lia.
Qed.

Lemma unhex4_hex4 (n : N) :
  (n < 65536)%N ->
  Json.unhex4 (MD5.hex_digit ((Z.of_N n / 4096) mod 16))
              (MD5.hex_digit ((Z.of_N n / 256) mod 16))
              (MD5.hex_digit ((Z.of_N n / 16) mod 16))
              (MD5.hex_digit (Z.of_N n mod 16)) = n.
Proof.
  intros Hn. unfold Json.unhex4.
  rewrite !unhex_hex_digit by (apply Z.mod_pos_bound; lia).
  apply N2Z.inj. rewrite !N2Z.inj_add, !N2Z.inj_mul.
  rewrite !Z2N.id by (apply Z.mod_pos_bound; lia).
  assert (0 <= Z.of_N n < 65536) as Hz by lia.
  generalize dependent (Z.of_N n). intros z Hz.
  change (Z.of_N 4096) with 4096. change (Z.of_N 256) with 256.
  change (Z.of_N 16) with 16.
  Z.to_euclidean_division_equations. lia.
Qed.

Lemma lor_surrogate_base (h : N) :
  (h < 1024)%N ->
  N.lor 55296 h = (55296 + h)%N /\ N.lor 56320 h = (56320 + h)%N.
Proof.
  intros Hh.
  pose proof (forallb_below
                (fun h => (N.lor 55296 h =? 55296 + h)
                          && (N.lor 56320 h =? 56320 + h))%N 1024%N) as H.
  specialize (H ltac:(vm_compute; reflexivity) h Hh).
  apply andb_true_iff in H. destruct H as [H1 H2].
  apply N.eqb_eq in H1. apply N.eqb_eq in H2. split; assumption.
Qed.

Lemma surrogate_pair_parts (c : N) :
  (65536 <= c)%N -> (c < 1114112)%N ->
  N.lor 55296 (N.land (N.shiftr (c - 65536) 10) 1023)
  = (55296 + (c - 65536) / 1024)%N
  /\ N.lor 56320 (N.land (c - 65536) 1023)
     = (56320 + (c - 65536) mod 1024)%N
  /\ ((c - 65536) / 1024 < 1024)%N
  /\ ((c - 65536) mod 1024 < 1024)%N.
Proof.
  intros Hlo Hhi.
  assert ((c - 65536) / 1024 < 1024)%N as Hq
    by (apply N.Div0.div_lt_upper_bound; lia).
  assert ((c - 65536) mod 1024 < 1024)%N as Hr
    by (apply N.mod_upper_bound; lia).
  change 1023%N with (N.ones 10).
  rewrite !N.land_ones, N.shiftr_div_pow2.
  change (2 ^ 10)%N with 1024%N.
  rewrite (N.mod_small _ _ Hq).
  destruct (lor_surrogate_base _ Hq) as [H1 _].
  destruct (lor_surrogate_base _ Hr) as [_ H2].
  repeat split; assumption.
Qed.

Lemma decode_token_uescape (n : N) (R : pystr) :
  (n < 65536)%N ->
  Json.decode_token (Json.uescape n ++ R)
  = if Json.is_high_surrogate n then
      match R with
      | _ :: _ :: l1 :: l2 :: l3 :: l4 :: rest3 =>
          Some ((65536 + (n - 55296) * 1024
                 + (Json.unhex4 l1 l2 l3 l4 - 56320))%N, rest3)
      | _ => None
      end
    else Some (n, R).
Proof.
  intros Hn. unfold Json.uescape, Json.hex4.
  change (Json.decode_token ((92%N :: 117%N :: ?l) ++ R))
    with (Json.decode_token (92%N :: 117%N :: l ++ R)).
  cbv beta iota delta [Json.decode_token app].
  change (92 =? 34)%N with false. change (92 =? 92)%N with true.
  change (117 =? 117)%N with true. cbv iota zeta.
  rewrite (unhex4_hex4 n Hn). reflexivity.
Qed.

(** Every escaped character of a scalar value is read back as that
    value, with nothing of the following text consumed. *)
Lemma decode_token_escape_char (c : N) (X : pystr) :
  is_scalar c = true ->
  Json.decode_token (Json.escape_char c ++ X) = Some (c, X).
Proof.
  intros Hc. unfold is_scalar, is_codepoint, is_surrogate in Hc.
  apply andb_true_iff in Hc. destruct Hc as [Hcp Hns].
  apply N.ltb_lt in Hcp. apply negb_true_iff in Hns.
  unfold Json.escape_char.
  destruct (N.eqb_spec c 34) as [-> | H34]; [ reflexivity | ].
  destruct (N.eqb_spec c 92) as [-> | H92]; [ reflexivity | ].
  destruct (N.eqb_spec c 8) as [-> | H8]; [ reflexivity | ].
  destruct (N.eqb_spec c 12) as [-> | H12]; [ reflexivity | ].
  destruct (N.eqb_spec c 10) as [-> | H10]; [ reflexivity | ].
  destruct (N.eqb_spec c 13) as [-> | H13]; [ reflexivity | ].
  destruct (N.eqb_spec c 9) as [-> | H9]; [ reflexivity | ].
  destruct ((32 <=? c) && (c <=? 126))%N eqn:Hprint.
  - simpl. apply N.eqb_neq in H34, H92. rewrite H34, H92. reflexivity.
  - destruct (N.ltb_spec c 65536) as [Hbmp | Hastral].
    + rewrite (decode_token_uescape c X Hbmp).
      assert (Json.is_high_surrogate c = false) as ->; [ | reflexivity ].
      unfold Json.is_high_surrogate.
      apply andb_false_iff in Hns. apply andb_false_iff.
      destruct Hns as [Hns | Hns]; [ left; exact Hns | right ].
      apply N.leb_gt in Hns. apply N.leb_gt. lia.
    + destruct (surrogate_pair_parts c Hastral Hcp) as [Hs1 [Hs2 [Hq Hr]]].
      cbv zeta. rewrite Hs1, Hs2. rewrite <- app_assoc.
      assert (c = 65536 + (1024 * ((c - 65536) / 1024) + (c - 65536) mod 1024))%N
        as Hdm.
      { pose proof (N.div_mod (c - 65536) 1024 ltac:(discriminate)) as Hd.
        rewrite <- Hd. lia. }
      clear Hs1 Hs2 Hns Hprint.
      set (q := ((c - 65536) / 1024)%N) in *.
      set (r := ((c - 65536) mod 1024)%N) in *.
      clearbody q r.
      rewrite decode_token_uescape by lia.
      assert (Json.is_high_surrogate (55296 + q) = true) as ->.
      { unfold Json.is_high_surrogate. apply andb_true_iff.
        split; apply N.leb_le; lia. }
      unfold Json.uescape, Json.hex4. cbn [app].
      rewrite unhex4_hex4 by lia.
      f_equal. f_equal. lia.
Qed.

Lemma decode_token_quote (X : pystr) : Json.decode_token (34%N :: X) = None.
Proof. reflexivity. Qed.

Lemma scalar_str_cons (c : N) (s : pystr) :
  scalar_str (c :: s) = true <-> is_scalar c = true /\ scalar_str s = true.
Proof. unfold scalar_str. simpl. apply andb_true_iff. Qed.

(** The escaped text of a string, up to the closing quote, determines the
    string and what follows the quote. *)
Lemma escape_quote_inj (s1 : pystr) :
  forall (s2 X Y : pystr),
    scalar_str s1 = true -> scalar_str s2 = true ->
    Json.escape s1 ++ 34%N :: X = Json.escape s2 ++ 34%N :: Y ->
    s1 = s2 /\ X = Y.
Proof.
  induction s1 as [ | c1 s1 IH]; intros [ | c2 s2] X Y H1 H2 Heq.
  - simpl in Heq. injection Heq as ->. split; reflexivity.
  - apply scalar_str_cons in H2. destruct H2 as [Hc2 _].
    apply (f_equal Json.decode_token) in Heq.
    unfold Json.escape in Heq. simpl in Heq. rewrite <- app_assoc in Heq.
    rewrite (decode_token_escape_char c2 _ Hc2) in Heq. discriminate.
  - apply scalar_str_cons in H1. destruct H1 as [Hc1 _].
    apply (f_equal Json.decode_token) in Heq.
    unfold Json.escape in Heq. simpl in Heq. rewrite <- app_assoc in Heq.
    rewrite (decode_token_escape_char c1 _ Hc1) in Heq. discriminate.
  - apply scalar_str_cons in H1. destruct H1 as [Hc1 Hs1].
    apply scalar_str_cons in H2. destruct H2 as [Hc2 Hs2].
    pose proof (f_equal Json.decode_token Heq) as Hd.
    unfold Json.escape in Hd. simpl in Hd. rewrite <- !app_assoc in Hd.
    rewrite (decode_token_escape_char c1 _ Hc1) in Hd.
    rewrite (decode_token_escape_char c2 _ Hc2) in Hd.
    injection Hd as -> Hrest.
    destruct (IH s2 X Y Hs1 Hs2 Hrest) as [-> ->]. split; reflexivity.
Qed.

Lemma dumps_str_app_inj (s1 s2 X Y : pystr) :
  scalar_str s1 = true -> scalar_str s2 = true ->
  Json.dumps_str s1 ++ X = Json.dumps_str s2 ++ Y ->
  s1 = s2 /\ X = Y.
Proof.
  intros H1 H2 Heq. unfold Json.dumps_str in Heq. simpl in Heq.
  injection Heq as Heq. rewrite <- !app_assoc in Heq. simpl in Heq.
  exact (escape_quote_inj s1 s2 X Y H1 H2 Heq).
Qed.

Lemma dumps_message_app_inj (m1 m2 : message) (X Y : pystr) :
  scalar_message m1 = true -> scalar_message m2 = true ->
  Json.dumps_message m1 ++ X = Json.dumps_message m2 ++ Y ->
  m1 = m2 /\ X = Y.
Proof.
  intros H1 H2 Heq. unfold scalar_message in H1, H2.
  apply andb_true_iff in H1, H2.
  destruct H1 as [Hr1 Hc1], H2 as [Hr2 Hc2].
  unfold Json.dumps_message in Heq. rewrite <- !app_assoc in Heq.
  apply app_inv_head in Heq. apply app_inv_head in Heq.
  apply app_inv_head in Heq.
  apply (dumps_str_app_inj _ _ _ _ Hc1 Hc2) in Heq.
  destruct Heq as [Hcontent Heq].
  apply app_inv_head in Heq. apply app_inv_head in Heq.
  apply app_inv_head in Heq.
  apply (dumps_str_app_inj _ _ _ _ Hr1 Hr2) in Heq.
  destruct Heq as [Hrole Heq].
  apply app_inv_head in Heq.
  destruct m1, m2; simpl in *; subst. split; reflexivity.
Qed.

Lemma dumps_tail_app_inj (ms1 : list message) :
  forall (ms2 : list message) (X Y : pystr),
    scalar_messages ms1 = true -> scalar_messages ms2 = true ->
    Json.dumps_tail ms1 ++ 93%N :: X = Json.dumps_tail ms2 ++ 93%N :: Y ->
    ms1 = ms2 /\ X = Y.
Proof.
  induction ms1 as [ | m1 ms1 IH]; intros [ | m2 ms2] X Y H1 H2 Heq;
    cbn [Json.dumps_tail] in Heq.
  - injection Heq as ->. split; reflexivity.
  - change (py ", ") with [44%N; 32%N] in Heq. discriminate.
  - change (py ", ") with [44%N; 32%N] in Heq. discriminate.
  - cbn [scalar_messages forallb] in H1, H2. apply andb_true_iff in H1, H2.
    destruct H1 as [Hm1 Hms1], H2 as [Hm2 Hms2].
    rewrite <- !app_assoc in Heq.
    apply app_inv_head in Heq.
    apply (dumps_message_app_inj _ _ _ _ Hm1 Hm2) in Heq.
    destruct Heq as [-> Heq].
    destruct (IH ms2 X Y Hms1 Hms2 Heq) as [-> ->]. split; reflexivity.
Qed.

Lemma dumps_messages_app_inj (ms1 ms2 : list message) (X Y : pystr) :
  scalar_messages ms1 = true -> scalar_messages ms2 = true ->
  Json.dumps_messages ms1 ++ X = Json.dumps_messages ms2 ++ Y ->
  ms1 = ms2 /\ X = Y.
Proof.
  intros H1 H2 Heq.
  destruct ms1 as [ | m1 ms1], ms2 as [ | m2 ms2];
    cbn [Json.dumps_messages] in Heq.
  - apply app_inv_head in Heq. subst. split; reflexivity.
  - change (py "[]") with [91%N; 93%N] in Heq.
    change (py "[") with [91%N] in Heq.
    unfold Json.dumps_message in Heq.
    change (py "{") with [123%N] in Heq. discriminate.
  - change (py "[]") with [91%N; 93%N] in Heq.
    change (py "[") with [91%N] in Heq.
    unfold Json.dumps_message in Heq.
    change (py "{") with [123%N] in Heq. discriminate.
  - cbn [scalar_messages forallb] in H1, H2. apply andb_true_iff in H1, H2.
    destruct H1 as [Hm1 Hms1], H2 as [Hm2 Hms2].
    rewrite <- !app_assoc in Heq. apply app_inv_head in Heq.
    apply (dumps_message_app_inj _ _ _ _ Hm1 Hm2) in Heq.
    destruct Heq as [-> Heq].
    change (py "]") with [93%N] in Heq. cbn [app] in Heq.
    destruct (dumps_tail_app_inj ms1 ms2 X Y Hms1 Hms2 Heq) as [-> ->].
    split; reflexivity.
Qed.

(** The canonical text determines the conversation and the model, for
    strings of scalar values. *)
Lemma dumps_cache_data_inj (ms1 ms2 : list message) (m1 m2 : pystr) :
  scalar_messages ms1 = true -> scalar_str m1 = true ->
  scalar_messages ms2 = true -> scalar_str m2 = true ->
  Json.dumps_cache_data ms1 m1 = Json.dumps_cache_data ms2 m2 ->
  ms1 = ms2 /\ m1 = m2.
Proof.
  intros Hms1 Hm1 Hms2 Hm2 Heq. unfold Json.dumps_cache_data in Heq.
  apply app_inv_head in Heq. apply app_inv_head in Heq.
  apply app_inv_head in Heq.
  apply (dumps_messages_app_inj _ _ _ _ Hms1 Hms2) in Heq.
  destruct Heq as [-> Heq].
  apply app_inv_head in Heq. apply app_inv_head in Heq.
  apply app_inv_head in Heq.
  apply (dumps_str_app_inj _ _ _ _ Hm1 Hm2) in Heq.
  destruct Heq as [-> _]. split; reflexivity.
Qed.

Lemma is_ascii_app (a b : pystr) : is_ascii (a ++ b) = is_ascii a && is_ascii b.
Proof. unfold is_ascii. apply forallb_app. Qed.

Lemma hex_digit_ascii (z : Z) : (MD5.hex_digit (z mod 16) <? 128)%N = true.
Proof.
  pose proof (Z.mod_pos_bound z 16 ltac:(lia)) as Hb.
  apply N.ltb_lt. unfold MD5.hex_digit.
  destruct (Z.ltb_spec (z mod 16) 10); lia.
Qed.

Lemma uescape_ascii (n : N) : is_ascii (Json.uescape n) = true.
Proof.
  unfold Json.uescape, Json.hex4, is_ascii. cbn [forallb].
  rewrite !hex_digit_ascii. reflexivity.
Qed.

Lemma escape_char_ascii (c : N) : is_ascii (Json.escape_char c) = true.
Proof.
  unfold Json.escape_char.
  repeat match goal with
         | |- context [ (c =? ?k)%N ] => destruct (c =? k)%N; [ reflexivity | ]
         end.
  destruct ((32 <=? c) && (c <=? 126))%N eqn:Hprint.
  - apply andb_true_iff in Hprint. destruct Hprint as [_ Hle].
    apply N.leb_le in Hle. unfold is_ascii. cbn [forallb].
    rewrite andb_true_r. apply N.ltb_lt. lia.
  - destruct (c <? 65536)%N.
    + apply uescape_ascii.
    + cbv zeta. rewrite is_ascii_app, !uescape_ascii. reflexivity.
Qed.

Lemma escape_ascii (s : pystr) : is_ascii (Json.escape s) = true.
Proof.
  unfold Json.escape. induction s as [ | c s IH]; [ reflexivity | ].
  cbn [map concat]. rewrite is_ascii_app, escape_char_ascii, IH. reflexivity.
Qed.

Lemma dumps_str_ascii (s : pystr) : is_ascii (Json.dumps_str s) = true.
Proof.
  unfold Json.dumps_str.
  change (34%N :: Json.escape s ++ [34%N]) with ([34%N] ++ Json.escape s ++ [34%N]).
  rewrite !is_ascii_app, escape_ascii. reflexivity.
Qed.

Lemma dumps_message_ascii (m : message) : is_ascii (Json.dumps_message m) = true.
Proof.
  unfold Json.dumps_message. rewrite !is_ascii_app, !dumps_str_ascii. reflexivity.
Qed.

Lemma dumps_tail_ascii (ms : list message) : is_ascii (Json.dumps_tail ms) = true.
Proof.
  induction ms as [ | m ms IH]; [ reflexivity | ].
  cbn [Json.dumps_tail]. rewrite !is_ascii_app, dumps_message_ascii, IH.
  reflexivity.
Qed.

Lemma dumps_cache_data_ascii (ms : list message) (model : pystr) :
  is_ascii (Json.dumps_cache_data ms model) = true.
Proof.
  unfold Json.dumps_cache_data. rewrite !is_ascii_app, !dumps_str_ascii.
  destruct ms as [ | m ms]; cbn [Json.dumps_messages].
  - reflexivity.
  - rewrite !is_ascii_app, dumps_message_ascii, dumps_tail_ascii. reflexivity.
Qed.

Lemma str_encode_ascii (s : pystr) :
  is_ascii s = true -> str_encode s = Some (map Z.of_N s).
Proof.
  induction s as [ | c s IH]; intros Hs; [ reflexivity | ].
  unfold is_ascii in Hs. cbn [forallb] in Hs. apply andb_true_iff in Hs.
  destruct Hs as [Hc Hs]. cbn [str_encode map]. unfold utf8_char.
  rewrite Hc, (IH Hs). reflexivity.
Qed.

(** [get_cache_key] never raises: the canonical text is ASCII, so
    [str.encode] succeeds, and the key is the digest [fingerprint]. *)
Lemma get_cache_key_fingerprint (messages : list message)
    (session_id : option pystr) (model : pystr) :
  get_cache_key messages session_id model = Some (fingerprint messages model).
Proof.
  unfold get_cache_key, fingerprint.
  rewrite (str_encode_ascii _ (dumps_cache_data_ascii messages model)).
  reflexivity.
Qed.

(* =================================================================== *)
(** *** Running the store operations *)
(* =================================================================== *)

Ltac run :=
  unfold bind, ret, raise, try_except, read_cache, write_cache, emit, lift;
  simpl.

Lemma save_cache_to_file_run (cache_data : store) (w : world) :
  save_cache_to_file cache_data w = (Returned tt, world_after_save cache_data w).
Proof.
  unfold save_cache_to_file, world_after_save, disk_after_save, write_file.
  run. destruct (bool_decide (CACHE_FILE ∈ denied (disk w))); simpl.
  - destruct w as [c [fs dn] tr]; reflexivity.
  - destruct (bool_decide (TEST_RESPONSE_FILE ∈ denied (disk w))); reflexivity.
Qed.

Lemma get_cached_response_hit (now : Z) (k : pystr) (w : world) (e : entry) :
  api_cache w !! k = Some e -> fresh now e = true ->
  get_cached_response now k w = (Returned (Some (response e)), w).
Proof.
  intros Hk Hf. unfold get_cached_response. run. rewrite Hk, Hf. reflexivity.
Qed.

Lemma get_cached_response_stale (now : Z) (k : pystr) (w : world) (e : entry) :
  api_cache w !! k = Some e -> fresh now e = false ->
  get_cached_response now k w
  = (Returned None,
     world_after_save (delete k (api_cache w))
       (World (delete k (api_cache w)) (disk w) (trace w))).
Proof.
  intros Hk Hf. unfold get_cached_response. run. rewrite Hk, Hf.
  rewrite save_cache_to_file_run. reflexivity.
Qed.

Lemma get_cached_response_absent (now : Z) (k : pystr) (w : world) :
  api_cache w !! k = None ->
  get_cached_response now k w = (Returned None, w).
Proof.
  intros Hk. unfold get_cached_response. run. rewrite Hk. reflexivity.
Qed.

Lemma set_cached_response_run (now : Z) (k : pystr) (resp : pydict) (w : world) :
  set_cached_response now k resp w
  = (Returned tt,
     world_after_save (<[k := Entry resp now]> (api_cache w))
       (World (<[k := Entry resp now]> (api_cache w)) (disk w) (trace w))).
Proof.
  unfold set_cached_response. run. rewrite save_cache_to_file_run. reflexivity.
Qed.

Lemma fresh_true_iff (now : Z) (e : entry) :
  fresh now e = true <-> now - timestamp e < CACHE_DURATION.
Proof. unfold fresh. apply Z.ltb_lt. Qed.

Lemma fresh_false_iff (now : Z) (e : entry) :
  fresh now e = false <-> now - timestamp e >= CACHE_DURATION.
Proof. unfold fresh. rewrite Z.ltb_ge. lia. Qed.

Lemma count_step_comm (t : Z) (j1 j2 : pystr) (z1 z2 : entry) (y : nat * nat) :
  count_step t j1 z1 (count_step t j2 z2 y)
  = count_step t j2 z2 (count_step t j1 z1 y).
Proof.
  destruct y as [a x]. unfold count_step.
  destruct (fresh t z1), (fresh t z2); reflexivity.
Qed.

Lemma count_entries_delete (t : Z) (k : pystr) (e : entry) (c : store) :
  c !! k = Some e ->
  count_entries t c = count_step t k e (count_entries t (delete k c)).
Proof.
  intros Hk. unfold count_entries.
  apply map_fold_delete_L; [ | exact Hk ].
  intros j1 j2 z1 z2 y _ _ _. apply count_step_comm.
Qed.

Lemma count_entries_empty (t : Z) : count_entries t ∅ = (0%nat, 0%nat).
Proof. unfold count_entries. apply map_fold_empty. Qed.

(** [show_cache_info] only reads: the world is unchanged, and the report
    carries the size of the store and the two counters of the loop. *)
Lemma show_cache_info_run (now : Z) (w : world) :
  exists info,
    show_cache_info now w = (Returned info, w)
    /\ info_counts info = (size (api_cache w), count_entries now (api_cache w)).
Proof.
  unfold show_cache_info. run.
  destruct (Nat.eqb_spec (size (api_cache w)) 0) as [Hz | Hnz].
  - unfold path_exists. eexists. split; [ reflexivity | ].
    simpl. rewrite Hz. apply map_size_empty_inv in Hz. rewrite Hz.
    rewrite count_entries_empty. reflexivity.
  - destruct (count_entries now (api_cache w)) as [a x] eqn:Hc.
    unfold path_exists, stat_size. simpl.
    destruct (files (disk w) !! CACHE_FILE) as [b | ] eqn:Hf; simpl.
    + rewrite Hf. eexists. split; reflexivity.
    + eexists. split; reflexivity.
Qed.

(* =================================================================== *)
(** *** C1, C2: lookup after insertion, and eviction on access *)
(* =================================================================== *)

(** C1. A [set_cached_response] at time [now] followed by a
    [get_cached_response] with the same key at a time [now'] with
    [now' - now < CACHE_DURATION] returns exactly the stored response
    (and the lookup leaves the store as the insertion left it). *)
Theorem set_then_get_before_expiry
    (key : pystr) (resp : pydict) (now now' : Z) (w : world) :
  now' - now < CACHE_DURATION ->
  exists w1,
    set_cached_response now key resp w = (Returned tt, w1)
    /\ get_cached_response now' key w1 = (Returned (Some resp), w1).
Proof.
  intros Hlt. rewrite set_cached_response_run. eexists. split; [ reflexivity | ].
  apply (get_cached_response_hit now' key _ (Entry resp now)).
  - simpl. apply lookup_insert_eq.
  - apply fresh_true_iff. simpl. exact Hlt.
Qed.

(** C2. When the entry stored under [key] has
    [now - timestamp >= CACHE_DURATION] at the time of a
    [get_cached_response], the call returns [None], the entry is deleted
    from [api_cache], [save_cache_to_file] is called on the remaining
    store (so a writable cache file then holds exactly its pickle), and
    every later report of [show_cache_info] is computed from the store
    without that entry: one entry fewer than before, the evicted entry
    being the only difference in the counters. *)
Theorem expired_entry_evicted_on_get
    (key : pystr) (e : entry) (now : Z) (w : world) :
  api_cache w !! key = Some e ->
  now - timestamp e >= CACHE_DURATION ->
  let remaining := delete key (api_cache w) in
  exists w',
    get_cached_response now key w = (Returned None, w')
    /\ api_cache w' = remaining
    /\ remaining !! key = None
    /\ trace w' = trace w ++ [SaveCalled remaining]
    /\ disk w' = disk_after_save remaining (disk w)
    /\ (CACHE_FILE ∉ denied (disk w) ->
        files (disk w') !! CACHE_FILE = Some (pickle_dumps remaining))
    /\ forall now2 : Z,
         exists info,
           show_cache_info now2 w' = (Returned info, w')
           /\ info_counts info = (size remaining, count_entries now2 remaining)
           /\ S (size remaining) = size (api_cache w)
           /\ count_entries now2 (api_cache w)
              = count_step now2 key e (count_entries now2 remaining).
Proof.
  intros Hk Hstale remaining.
  apply fresh_false_iff in Hstale.
  rewrite (get_cached_response_stale now key w e Hk Hstale).
  eexists. split; [ reflexivity | ]. simpl.
  split; [ reflexivity | ].
  split; [ apply lookup_delete_eq | ].
  split; [ reflexivity | ].
  split; [ reflexivity | ].
  split.
  - intros Hw. unfold disk_after_save.
    rewrite bool_decide_eq_false_2 by exact Hw.
    destruct (bool_decide (TEST_RESPONSE_FILE ∈ denied (disk w))); simpl.
    + apply lookup_insert_eq.
    + rewrite lookup_insert_ne by discriminate. apply lookup_insert_eq.
  - intros now2.
    destruct (show_cache_info_run now2
                (world_after_save remaining
                   (World remaining (disk w) (trace w)))) as [info [Hrun Hcnt]].
    exists info. split; [ exact Hrun | ].
    split; [ exact Hcnt | ].
    split.
    + unfold remaining. rewrite map_size_delete, Hk.
      assert (size (api_cache w) <> 0%nat) as Hne.
      { apply map_size_non_empty_iff. intros Hempty.
        rewrite Hempty, lookup_empty in Hk. discriminate. }
      lia.
    + apply count_entries_delete. exact Hk.
Qed.

(* =================================================================== *)
(** *** C7, C8, C9: loading, pruning and persisting *)
(* =================================================================== *)

(** What [load_cache_from_file] returns, by the state of the cache file. *)
Lemma load_cache_from_file_cases (w : world) :
  exists c : store,
    load_cache_from_file w = (Returned c, w)
    /\ (files (disk w) !! CACHE_FILE = None -> c = ∅)
    /\ (CACHE_FILE ∈ denied (disk w) -> c = ∅)
    /\ (forall b, files (disk w) !! CACHE_FILE = Some b ->
                  pickle_loads b = None -> c = ∅)
    /\ (forall b c0, CACHE_FILE ∉ denied (disk w) ->
                     files (disk w) !! CACHE_FILE = Some b ->
                     pickle_loads b = Some c0 -> c = c0).
Proof.
  unfold load_cache_from_file, path_exists, read_file, pickle_load. run.
  destruct (files (disk w) !! CACHE_FILE) as [b | ] eqn:Hf; simpl.
  - destruct (bool_decide (CACHE_FILE ∈ denied (disk w))) eqn:Hd; simpl.
    + apply bool_decide_eq_true_1 in Hd.
      exists ∅. repeat split; try reflexivity; intros; try congruence;
        try contradiction.
    + apply bool_decide_eq_false_1 in Hd. rewrite Hf.
      destruct (pickle_loads b) as [c0 | ] eqn:Hp; simpl.
      * exists c0. repeat split; intros; try congruence; try contradiction.
      * exists ∅. repeat split; intros; try congruence.
  - exists ∅. repeat split; intros; try congruence.
Qed.

(** C7. [load_cache_from_file] always returns a store and never raises:
    the empty store when the cache file does not exist, when it cannot be
    opened, and when unpickling its content fails for any reason; the
    unpickled store otherwise. It changes nothing. *)
Theorem load_cache_from_file_never_raises (w : world) :
  exists c : store,
    load_cache_from_file w = (Returned c, w)
    /\ (files (disk w) !! CACHE_FILE = None -> c = ∅)
    /\ (CACHE_FILE ∈ denied (disk w) -> c = ∅)
    /\ (forall b, files (disk w) !! CACHE_FILE = Some b ->
                  pickle_loads b = None -> c = ∅)
    /\ (forall b c0, CACHE_FILE ∉ denied (disk w) ->
                     files (disk w) !! CACHE_FILE = Some b ->
                     pickle_loads b = Some c0 -> c = c0).
Proof. exact (load_cache_from_file_cases w). Qed.

(** The loop of [cleanup_expired_cache]: the fresh entries, unchanged, and
    the number of entries left out. *)
Lemma cleanup_loop_spec (now : Z) (c : store) :
  (forall k, (cleanup_loop now c).1 !! k
             = match c !! k with
               | Some e => if fresh now e then Some e else None
               | None => None
               end)
  /\ ((cleanup_loop now c).2 = 0%nat ->
      forall k e, c !! k = Some e -> fresh now e = true)
  /\ ((cleanup_loop now c).2 <> 0%nat ->
      exists k e, c !! k = Some e /\ fresh now e = false).
Proof.
  unfold cleanup_loop.
  apply (map_fold_weak_ind
           (fun (acc : store * nat) (m : store) =>
              (forall k, acc.1 !! k
                         = match m !! k with
                           | Some e => if fresh now e then Some e else None
                           | None => None
                           end)
              /\ (acc.2 = 0%nat ->
                  forall k e, m !! k = Some e -> fresh now e = true)
              /\ (acc.2 <> 0%nat ->
                  exists k e, m !! k = Some e /\ fresh now e = false))).
  - simpl. split; [ | split ].
    + intros k. rewrite !lookup_empty. reflexivity.
    + intros _ k e Hk. rewrite lookup_empty in Hk. discriminate.
    + intros Hn. contradiction.
  - intros i x m [cleaned n] Hi [Hlook [Hzero Hpos]]. simpl in *.
    unfold cleanup_step. destruct (fresh now x) eqn:Hx; simpl.
    + split; [ | split ].
      * intros k. destruct (decide (i = k)) as [-> | Hne].
        -- rewrite !lookup_insert_eq, Hx. reflexivity.
        -- rewrite !lookup_insert_ne by exact Hne. apply Hlook.
      * intros Hn k e Hk. destruct (decide (i = k)) as [-> | Hne].
        -- rewrite lookup_insert_eq in Hk. congruence.
        -- rewrite lookup_insert_ne in Hk by exact Hne. eapply Hzero; eauto.
      * intros Hn. destruct (Hpos Hn) as [k [e [Hk He]]].
        exists k, e. split; [ | exact He ].
        rewrite lookup_insert_ne; [ exact Hk | congruence ].
    + split; [ | split ].
      * intros k. destruct (decide (i = k)) as [-> | Hne].
        -- rewrite lookup_insert_eq, Hx, Hlook, Hi. reflexivity.
        -- rewrite lookup_insert_ne by exact Hne. apply Hlook.
      * intros Hn. discriminate.
      * intros _. exists i, x. split; [ apply lookup_insert_eq | exact Hx ].
Qed.

Lemma world_after_save_neq (c : store) (w : world) : world_after_save c w <> w.
Proof.
  intros Heq. apply (f_equal trace) in Heq. simpl in Heq.
  apply (f_equal length) in Heq. rewrite length_app in Heq. simpl in Heq. lia.
Qed.

Lemma cleanup_expired_cache_run (now : Z) (c : store) (w : world) :
  cleanup_expired_cache now c w
  = (Returned (cleanup_loop now c).1,
     if (0 <? (cleanup_loop now c).2)%nat
     then world_after_save (cleanup_loop now c).1 w else w).
Proof.
  unfold cleanup_expired_cache.
  destruct (cleanup_loop now c) as [cleaned n]. run.
  destruct (0 <? n)%nat.
  - rewrite save_cache_to_file_run. reflexivity.
  - reflexivity.
Qed.

(** C8. [cleanup_expired_cache] returns the store from which exactly the
    entries with [now - timestamp >= CACHE_DURATION] are removed, every
    other entry being kept unchanged; it calls [save_cache_to_file] on
    that store if and only if at least one entry was removed, and
    otherwise changes nothing. At start-up it is applied once, to the
    store that [load_cache_from_file] returned, and its result becomes
    [api_cache]. *)
Theorem cleanup_expired_cache_spec (now : Z) (c : store) (w : world) :
  exists (cleaned : store) (w' : world),
    cleanup_expired_cache now c w = (Returned cleaned, w')
    /\ (forall k e, c !! k = Some e ->
          now - timestamp e < CACHE_DURATION -> cleaned !! k = Some e)
    /\ (forall k e, c !! k = Some e ->
          now - timestamp e >= CACHE_DURATION -> cleaned !! k = None)
    /\ (forall k, c !! k = None -> cleaned !! k = None)
    /\ ((exists k e, c !! k = Some e /\ now - timestamp e >= CACHE_DURATION)
        <-> w' = world_after_save cleaned w)
    /\ ((forall k e, c !! k = Some e -> now - timestamp e < CACHE_DURATION)
        <-> w' = w)
    /\ exists (loaded started : store) (w1 : world),
         load_cache_from_file w = (Returned loaded, w)
         /\ cleanup_expired_cache now loaded (World loaded (disk w) (trace w))
            = (Returned started, w1)
         /\ startup now w = (Returned tt, World started (disk w1) (trace w1)).
Proof.
  destruct (cleanup_loop_spec now c) as [Hlook [Hzero Hpos]].
  rewrite cleanup_expired_cache_run.
  eexists. eexists. split; [ reflexivity | ].
  split; [ | split; [ | split; [ | split; [ | split ] ] ] ].
  - intros k e Hk Hf. apply fresh_true_iff in Hf. rewrite Hlook, Hk, Hf.
    reflexivity.
  - intros k e Hk Hf. apply fresh_false_iff in Hf. rewrite Hlook, Hk, Hf.
    reflexivity.
  - intros k Hk. rewrite Hlook, Hk. reflexivity.
  - destruct (Nat.ltb_spec 0 (cleanup_loop now c).2) as [Hn | Hn].
    + split; [ reflexivity | ]. intros _.
      destruct Hpos as [k [e [Hk He]]]; [ lia | ].
      exists k, e. split; [ exact Hk | apply fresh_false_iff; exact He ].
    + split.
      * intros [k [e [Hk He]]]. apply fresh_false_iff in He.
        rewrite (Hzero ltac:(lia) k e Hk) in He. discriminate.
      * intros Heq. symmetry in Heq. apply world_after_save_neq in Heq.
        contradiction.
  - destruct (Nat.ltb_spec 0 (cleanup_loop now c).2) as [Hn | Hn].
    + split.
      * intros Hall. destruct Hpos as [k [e [Hk He]]]; [ lia | ].
        apply fresh_false_iff in He. specialize (Hall k e Hk). lia.
      * intros Heq. apply world_after_save_neq in Heq. contradiction.
    + split; [ reflexivity | ]. intros _ k e Hk.
      apply fresh_true_iff. apply (Hzero ltac:(lia) k e Hk).
  - destruct (load_cache_from_file_cases w) as [loaded [Hload _]].
    exists loaded. eexists. eexists.
    split; [ exact Hload | ].
    split; [ apply cleanup_expired_cache_run | ].
    unfold startup. run. rewrite Hload.
    rewrite cleanup_expired_cache_run.
    destruct (0 <? (cleanup_loop now loaded).2)%nat; reflexivity.
Qed.


(* =================================================================== *)
(** *** C5, C6: the fingerprint *)
(* =================================================================== *)

(** C5. For the same messages and model and any two session identifiers,
    [get_cache_key] computes the same key (and does compute one): the
    session identifier has no influence on the fingerprint. *)
Theorem cache_key_ignores_session_id
    (messages : list message) (model : pystr) (session1 session2 : option pystr) :
  get_cache_key messages session1 model = get_cache_key messages session2 model
  /\ get_cache_key messages session1 model = Some (fingerprint messages model).
Proof.
  rewrite !get_cache_key_fingerprint. split; reflexivity.
Qed.

(** C6 (as the code has it). The key is a function of the messages and the
    model alone, and is always produced; and for strings of Unicode scalar
    values (no surrogate code point), any difference in the messages
    (content, role, order, number) or in the model gives a different
    canonical text. *)
Theorem cache_key_deterministic_and_canonical_text_injective :
  (forall (ms1 ms2 : list message) (m1 m2 : pystr) (s1 s2 : option pystr),
      ms1 = ms2 -> m1 = m2 ->
      get_cache_key ms1 s1 m1 = get_cache_key ms2 s2 m2
      /\ exists key, get_cache_key ms1 s1 m1 = Some key)
  /\ (forall (ms1 ms2 : list message) (m1 m2 : pystr),
        scalar_messages ms1 = true -> scalar_str m1 = true ->
        scalar_messages ms2 = true -> scalar_str m2 = true ->
        ms1 <> ms2 \/ m1 <> m2 ->
        Json.dumps_cache_data ms1 m1 <> Json.dumps_cache_data ms2 m2).
Proof.
  split.
  - intros ms1 ms2 m1 m2 s1 s2 -> ->. rewrite !get_cache_key_fingerprint.
    split; [ reflexivity | eexists; reflexivity ].
  - intros ms1 ms2 m1 m2 H1 H2 H3 H4 Hdiff Heq.
    destruct (dumps_cache_data_inj ms1 ms2 m1 m2 H1 H2 H3 H4 Heq) as [Hms Hm].
    destruct Hdiff as [Hd | Hd]; contradiction.
Qed.

(* =================================================================== *)
(** *** Running the client *)
(* =================================================================== *)

Lemma get_cached_response_returns (now : Z) (k : pystr) (w : world) :
  exists (r : option pydict) (w1 : world),
    get_cached_response now k w = (Returned r, w1)
    /\ (forall k' e, api_cache w1 !! k' = Some e -> api_cache w !! k' = Some e)
    /\ filter is_post (trace w1) = filter is_post (trace w).
Proof.
  destruct (api_cache w !! k) as [e | ] eqn:Hk.
  - destruct (fresh now e) eqn:Hf.
    + rewrite (get_cached_response_hit now k w e Hk Hf).
      eexists. eexists. split; [ reflexivity | ]. split; [ auto | reflexivity ].
    + rewrite (get_cached_response_stale now k w e Hk Hf).
      eexists. eexists. split; [ reflexivity | ]. simpl. split.
      * intros k' e' Hk'. apply lookup_delete_Some in Hk'. tauto.
      * rewrite filter_app. simpl. apply app_nil_r.
  - rewrite (get_cached_response_absent now k w Hk).
    eexists. eexists. split; [ reflexivity | ]. split; [ auto | reflexivity ].
Qed.

(** The [try] block, branch by branch. *)
Lemma send_chat_message_try_run (net : request -> outcome http_response)
    (t_lookup t_store : Z) (messages : list message)
    (session_id : option pystr) (model : pystr) (w : world) :
  send_chat_message_try net t_lookup t_store messages session_id model w
  = match get_cached_response t_lookup (fingerprint messages model) w with
    | (Returned (Some cached), w1) => (Returned cached, w1)
    | (Returned None, w1) =>
        let w2 := world_after_post (Request messages session_id model) w1 in
        match net (Request messages session_id model) with
        | Raised e => (Raised e, w2)
        | Returned resp =>
            match json_body resp with
            | Raised e => (Raised e, w2)
            | Returned body =>
                if status_code resp =? 200 then
                  (Returned body,
                   world_after_save
                     (<[fingerprint messages model := Entry body t_store]>
                        (api_cache w2))
                     (World (<[fingerprint messages model := Entry body t_store]>
                               (api_cache w2))
                            (disk w2) (trace w2)))
                else
                  (Returned (error_dict (py "API request failed: "
                                           ++ str_of_int (status_code resp)
                                           ++ py " - " ++ text resp)), w2)
            end
        end
    | (Raised e, w1) => (Raised e, w1)
    end.
Proof.
  unfold send_chat_message_try, cache_key_of.
  rewrite get_cache_key_fingerprint. unfold bind at 1. unfold ret at 1.
  unfold bind at 1.
  destruct (get_cached_response t_lookup (fingerprint messages model) w)
    as [[[cached | ] | e] w1]; try reflexivity.
  unfold requests_post, response_json, world_after_post, lift.
  unfold bind at 1. unfold bind at 1. unfold emit at 1.
  destruct (net (Request messages session_id model)) as [resp | e];
    [ | reflexivity ].
  unfold ret at 1. unfold bind at 1.
  destruct (json_body resp) as [body | e]; [ | reflexivity ].
  unfold ret at 1.
  destruct (status_code resp =? 200); [ | reflexivity ].
  unfold bind at 1. unfold ret at 1. unfold bind at 1.
  rewrite set_cached_response_run. reflexivity.
Qed.

(** Every entry of the store after a call was there before, or holds the
    body of the status-200 response of that call. *)
Lemma run_call_entries (c : call) (w : world) (k : pystr) (e : entry) :
  api_cache (run_call c w).2 !! k = Some e ->
  api_cache w !! k = Some e \/ success_body c = Some (response e).
Proof.
  unfold run_call, send_chat_message, try_except, success_body.
  rewrite send_chat_message_try_run.
  destruct (get_cached_response_returns (call_t_lookup c)
              (fingerprint (call_messages c) (call_model c)) w)
    as [r [w1 [Hget [Hsub _]]]].
  rewrite Hget. destruct r as [cached | ].
  - simpl. intros Hk. left. apply Hsub. exact Hk.
  - cbv zeta.
    destruct (call_net c (Request (call_messages c) (call_session_id c)
                            (call_model c))) as [resp | ex].
    + destruct (json_body resp) as [body | ex].
      * destruct (status_code resp =? 200).
        -- simpl. intros Hk. apply lookup_insert_Some in Hk.
           destruct Hk as [[_ <-] | [_ Hk]]; [ right; reflexivity | ].
           left. apply Hsub. exact Hk.
        -- simpl. intros Hk. left. apply Hsub. exact Hk.
      * destruct ex; simpl; intros Hk; left; apply Hsub; exact Hk.
    + destruct ex; simpl; intros Hk; left; apply Hsub; exact Hk.
Qed.

Lemma run_calls_entries (P : pydict -> Prop) (cs : list call) :
  forall w : world,
    (forall k e, api_cache w !! k = Some e -> P (response e)) ->
    (forall c body, In c cs -> success_body c = Some body -> P body) ->
    forall k e, api_cache (run_calls cs w) !! k = Some e -> P (response e).
Proof.
  unfold run_calls. induction cs as [ | c cs IH]; intros w Hw Hcs k e Hk.
  - simpl in Hk. eapply Hw. exact Hk.
  - simpl in Hk. apply (IH (run_call c w).2) with (k := k); [ | | exact Hk ].
    + intros k' e' Hk'. apply run_call_entries in Hk'.
      destruct Hk' as [Hold | Hnew].
      * eapply Hw. exact Hold.
      * apply (Hcs c); [ left; reflexivity | exact Hnew ].
    + intros c' body Hin. apply Hcs. right. exact Hin.
Qed.

(* =================================================================== *)
(** *** C3, C4, C10: the client *)
(* =================================================================== *)


(** C4. A call whose POST is not answered with status 200 and a decodable
    body (a transport failure, any other status, an undecodable body)
    inserts nothing: every entry of the store after the call was there,
    unchanged, before it. Hence, from an empty store, every entry present
    after any sequence of calls holds the body of a status-200 response to
    one of those calls. *)
Theorem error_results_are_never_cached :
  (forall (c : call) (w : world),
      success_body c = None ->
      forall k e, api_cache (run_call c w).2 !! k = Some e ->
                  api_cache w !! k = Some e)
  /\ (forall (cs : list call) (w : world),
        api_cache w = ∅ ->
        forall k e, api_cache (run_calls cs w) !! k = Some e ->
                    exists c, In c cs /\ success_body c = Some (response e)).
Proof.
  split.
  - intros c w Hnone k e Hk. apply run_call_entries in Hk.
    destruct Hk as [Hold | Hnew]; [ exact Hold | congruence ].
  - intros cs w Hempty k e Hk.
    apply (run_calls_entries
             (fun body => exists c, In c cs /\ success_body c = Some body)
             cs w) with (k := k); [ | | exact Hk ].
    + intros k' e' Hk'. rewrite Hempty, lookup_empty in Hk'. discriminate.
    + intros c body Hin Hbody. exists c. split; assumption.
Qed.


(* =================================================================== *)
(** *** Further properties of the store *)
(* =================================================================== *)

(** X1. Expiry is counted from the write, not from the last read: a hit at
    [t1] leaves the entry as it is, and a lookup at [t2] with
    [t2 - t0 >= CACHE_DURATION] evicts it, however recent the hit. *)
Theorem hits_do_not_extend_lifetime
    (key : pystr) (resp : pydict) (t0 t1 t2 : Z) (w : world) :
  t1 - t0 < CACHE_DURATION ->
  t2 - t0 >= CACHE_DURATION ->
  exists w1 w2,
    set_cached_response t0 key resp w = (Returned tt, w1)
    /\ get_cached_response t1 key w1 = (Returned (Some resp), w1)
    /\ get_cached_response t2 key w1 = (Returned None, w2)
    /\ api_cache w2 !! key = None.
Proof.
  intros Hhit Hstale. rewrite set_cached_response_run.
  eexists. eexists. split; [ reflexivity | ].
  split; [ | split ].
  - apply (get_cached_response_hit t1 key _ (Entry resp t0)).
    + simpl. apply lookup_insert_eq.
    + apply fresh_true_iff. exact Hhit.
  - apply (get_cached_response_stale t2 key _ (Entry resp t0)).
    + simpl. apply lookup_insert_eq.
    + apply fresh_false_iff. exact Hstale.
  - simpl. apply lookup_delete_eq.
Qed.

(** X2. [set_cached_response] replaces whatever was stored under the key,
    timestamp included, leaves every other key alone, and saves the whole
    updated store. *)
Theorem set_replaces_entry_and_saves
    (now : Z) (key : pystr) (resp : pydict) (w : world) :
  exists w',
    set_cached_response now key resp w = (Returned tt, w')
    /\ api_cache w' !! key = Some (Entry resp now)
    /\ (forall k, k <> key -> api_cache w' !! k = api_cache w !! k)
    /\ size (api_cache w')
       = match api_cache w !! key with
         | Some _ => size (api_cache w)
         | None => S (size (api_cache w))
         end
    /\ trace w' = trace w ++ [SaveCalled (api_cache w')].
Proof.
  rewrite set_cached_response_run. eexists. split; [ reflexivity | ]. simpl.
  split; [ apply lookup_insert_eq | ].
  split; [ intros k Hk; apply lookup_insert_ne; congruence | ].
  split; [ | reflexivity ].
  destruct (api_cache w !! key) as [e | ] eqn:Hk.
  - apply map_size_insert_Some. eauto.
  - apply map_size_insert_None. exact Hk.
Qed.

Lemma cleanup_loop_empty (now : Z) : cleanup_loop now ∅ = (∅, 0%nat).
Proof. unfold cleanup_loop. apply map_fold_empty. Qed.

(** The two module-level assignments, given what the load returns. *)
Lemma startup_run (now : Z) (w : world) (loaded : store) :
  load_cache_from_file w = (Returned loaded, w) ->
  startup now w
  = (Returned tt,
     World (cleanup_loop now loaded).1
       (disk (if (0 <? (cleanup_loop now loaded).2)%nat
              then world_after_save (cleanup_loop now loaded).1
                     (World loaded (disk w) (trace w))
              else World loaded (disk w) (trace w)))
       (trace (if (0 <? (cleanup_loop now loaded).2)%nat
               then world_after_save (cleanup_loop now loaded).1
                      (World loaded (disk w) (trace w))
               else World loaded (disk w) (trace w)))).
Proof.
  intros Hload. unfold startup. run. rewrite Hload.
  rewrite cleanup_expired_cache_run. reflexivity.
Qed.

Lemma disk_after_save_cache_file (c : store) (d : filesystem) :
  CACHE_FILE ∉ denied d ->
  files (disk_after_save c d) !! CACHE_FILE = Some (pickle_dumps c)
  /\ denied (disk_after_save c d) = denied d.
Proof.
  intros Hw. unfold disk_after_save. rewrite bool_decide_eq_false_2 by exact Hw.
  destruct (bool_decide (TEST_RESPONSE_FILE ∈ denied d)); simpl.
  - split; [ apply lookup_insert_eq | reflexivity ].
  - split; [ | reflexivity ].
    rewrite lookup_insert_ne by discriminate. apply lookup_insert_eq.
Qed.

(** X3. A restart reproduces the hit: with a pickle codec that round-trips
    and a writable cache file, an entry written at [t0] is found again by
    a new process that starts at [t1] and looks the key up at [t2], as
    long as both times are within [CACHE_DURATION] of [t0]. *)
Theorem restart_reproduces_hit
    (key : pystr) (resp : pydict) (t0 t1 t2 : Z) (w : world) :
  (forall c : store, pickle_loads (pickle_dumps c) = Some c) ->
  CACHE_FILE ∉ denied (disk w) ->
  t1 - t0 < CACHE_DURATION ->
  t2 - t0 < CACHE_DURATION ->
  exists w1 w2,
    set_cached_response t0 key resp w = (Returned tt, w1)
    /\ startup t1 (restarted w1) = (Returned tt, w2)
    /\ get_cached_response t2 key w2 = (Returned (Some resp), w2).
Proof.
  intros Hround Hw Ht1 Ht2. rewrite set_cached_response_run.
  set (c1 := <[key := Entry resp t0]> (api_cache w)).
  set (w1 := world_after_save c1 (World c1 (disk w) (trace w))).
  destruct (disk_after_save_cache_file c1 (disk w) Hw) as [Hfile Hden].
  assert (load_cache_from_file (restarted w1) = (Returned c1, restarted w1))
    as Hload.
  { destruct (load_cache_from_file_cases (restarted w1))
      as [c [Hl [_ [_ [_ Hsome]]]]].
    rewrite Hl. f_equal. f_equal.
    apply (Hsome (pickle_dumps c1) c1).
    - simpl. rewrite Hden. exact Hw.
    - exact Hfile.
    - apply Hround. }
  exists w1. eexists. split; [ reflexivity | ].
  split; [ apply (startup_run t1 (restarted w1) c1 Hload) | ].
  apply (get_cached_response_hit t2 key _ (Entry resp t0)).
  - simpl. destruct (cleanup_loop_spec t1 c1) as [Hlook _].
    rewrite Hlook. unfold c1. rewrite lookup_insert_eq.
    assert (fresh t1 (Entry resp t0) = true) as ->
      by (apply fresh_true_iff; exact Ht1).
    reflexivity.
  - apply fresh_true_iff. exact Ht2.
Qed.

(** X4. When the cache file cannot be opened, a save is dropped whole: the
    disk is unchanged (the second file is not attempted either) and no
    exception escapes. The store in memory stays authoritative: the entry
    just set is still found by a lookup. *)
Theorem unwritable_cache_file_keeps_memory_authoritative
    (key : pystr) (resp : pydict) (now now' : Z) (w : world) :
  CACHE_FILE ∈ denied (disk w) ->
  now' - now < CACHE_DURATION ->
  exists w1,
    set_cached_response now key resp w = (Returned tt, w1)
    /\ disk w1 = disk w
    /\ get_cached_response now' key w1 = (Returned (Some resp), w1).
Proof.
  intros Hd Hf. rewrite set_cached_response_run.
  eexists. split; [ reflexivity | ]. split.
  - simpl. unfold disk_after_save. rewrite bool_decide_eq_true_2 by exact Hd.
    reflexivity.
  - apply (get_cached_response_hit now' key _ (Entry resp now)).
    + simpl. apply lookup_insert_eq.
    + apply fresh_true_iff. exact Hf.
Qed.

Lemma cleanup_loop_fixed (now : Z) (c : store) :
  cleanup_loop now (cleanup_loop now c).1 = ((cleanup_loop now c).1, 0%nat).
Proof.
  destruct (cleanup_loop_spec now c) as [Hlook _].
  destruct (cleanup_loop_spec now (cleanup_loop now c).1) as [Hlook2 [_ Hpos2]].
  assert (forall k e, (cleanup_loop now c).1 !! k = Some e -> fresh now e = true)
    as Hfresh.
  { intros k e Hk. rewrite Hlook in Hk.
    destruct (c !! k) as [e0 | ]; [ | discriminate ].
    destruct (fresh now e0) eqn:He0; [ | discriminate ].
    congruence. }
  destruct (cleanup_loop now (cleanup_loop now c).1) as [c2 n2] eqn:Hloop.
  simpl in *. f_equal.
  - apply map_eq. intros k. rewrite Hlook2.
    destruct ((cleanup_loop now c).1 !! k) as [e | ] eqn:Hk; [ | reflexivity ].
    rewrite (Hfresh k e Hk). reflexivity.
  - destruct n2 as [ | n2]; [ reflexivity | ].
    destruct (Hpos2 ltac:(discriminate)) as [k [e [Hk He]]].
    rewrite (Hfresh k e Hk) in He. discriminate.
Qed.

(** X5. Pruning is idempotent: pruning the pruned store at the same time
    returns it unchanged and saves nothing. *)
Theorem cleanup_expired_cache_idempotent (now : Z) (c : store) (w : world) :
  exists cleaned w1,
    cleanup_expired_cache now c w = (Returned cleaned, w1)
    /\ cleanup_expired_cache now cleaned w1 = (Returned cleaned, w1).
Proof.
  rewrite cleanup_expired_cache_run. eexists. eexists.
  split; [ reflexivity | ].
  rewrite cleanup_expired_cache_run, cleanup_loop_fixed. reflexivity.
Qed.

(** X6. Start-up without a usable cache file (none, one that cannot be opened,
    or one that does not unpickle) begins with the empty store and writes
    nothing: an unreadable file is left on the disk as it is. *)
Theorem startup_without_usable_file (now : Z) (w : world) :
  (files (disk w) !! CACHE_FILE = None
   \/ CACHE_FILE ∈ denied (disk w)
   \/ exists b, files (disk w) !! CACHE_FILE = Some b
                /\ pickle_loads b = None) ->
  startup now w = (Returned tt, World ∅ (disk w) (trace w)).
Proof.
  intros Hcase.
  destruct (load_cache_from_file_cases w)
    as [c [Hload [Hnone [Hden [Hbad _]]]]].
  assert (c = ∅) as ->.
  { destruct Hcase as [H | [H | [b [Hb Hp]]]];
      [ apply Hnone | apply Hden | apply (Hbad b) ]; assumption. }
  rewrite (startup_run now w ∅ Hload), cleanup_loop_empty. reflexivity.
Qed.

Lemma count_entries_sum (now : Z) (c : store) :
  ((count_entries now c).1 + (count_entries now c).2 = size c)%nat.
Proof.
  unfold count_entries.
  apply (map_fold_weak_ind
           (fun (acc : nat * nat) (m : store) => (acc.1 + acc.2 = size m)%nat)).
  - rewrite map_size_empty. reflexivity.
  - intros i x m [a e] Hi IH. simpl in *.
    rewrite (map_size_insert_None _ _ _ Hi). unfold count_step.
    destruct (fresh now x); simpl; lia.
Qed.

(** X7. [show_cache_info] only reads: it removes nothing, even the entries it
    counts as expired, and writes nothing; the total it reports is the
    number of entries, and the active and expired counters add up to it. *)
Theorem show_cache_info_is_read_only (now : Z) (w : world) :
  exists info,
    show_cache_info now w = (Returned info, w)
    /\ (info_counts info).1 = size (api_cache w)
    /\ ((info_counts info).2.1 + (info_counts info).2.2
        = size (api_cache w))%nat.
Proof.
  destruct (show_cache_info_run now w) as [info [Hrun Hcnt]].
  exists info. split; [ exact Hrun | ]. rewrite Hcnt. simpl.
  split; [ reflexivity | apply count_entries_sum ].
Qed.

(* =================================================================== *)
(** *** Further properties of the fingerprint and the client *)
(* =================================================================== *)

Lemma le_bytes_range (n : nat) :
  forall x : Z, Forall (fun b => 0 <= b < 256) (MD5.le_bytes n x).
Proof.
  induction n as [ | n IH]; intros x; simpl.
  - constructor.
  - constructor; [ apply Z.mod_pos_bound; lia | apply IH ].
Qed.

Lemma le_bytes_length (n : nat) (x : Z) : length (MD5.le_bytes n x) = n.
Proof.
  revert x. induction n as [ | n IH]; intros x; simpl;
    [ reflexivity | rewrite IH; reflexivity ].
Qed.

Lemma digest_bytes (msg : list Z) :
  length (MD5.digest msg) = 16%nat
  /\ Forall (fun b => 0 <= b < 256) (MD5.digest msg).
Proof.
  unfold MD5.digest.
  destruct (MD5.blocks (length (MD5.pad msg)) MD5.init (MD5.pad msg))
    as [a b c d].
  split.
  - rewrite !length_app, !le_bytes_length. reflexivity.
  - repeat (apply Forall_app; split); apply le_bytes_range.
Qed.

Lemma hex_digit_is_lower_hex (d : Z) :
  0 <= d < 16 -> is_lower_hex (MD5.hex_digit d) = true.
Proof.
  intros Hd. unfold is_lower_hex, MD5.hex_digit.
  destruct (Z.ltb_spec d 10).
  - apply orb_true_iff. left. apply andb_true_iff.
    split; apply N.leb_le; lia.
  - apply orb_true_iff. right. apply andb_true_iff.
    split; apply N.leb_le; lia.
Qed.

Lemma hex_bytes_format (bs : list Z) :
  Forall (fun b => 0 <= b < 256) bs ->
  length (concat (map MD5.hex_byte bs)) = (2 * length bs)%nat
  /\ forallb is_lower_hex (concat (map MD5.hex_byte bs)) = true.
Proof.
  induction 1 as [ | b bs Hb _ [IHlen IHhex]]; [ split; reflexivity | ].
  cbn [map concat]. unfold MD5.hex_byte at 1 3. cbn [app length forallb].
  split; [ rewrite IHlen; lia | ].
  rewrite IHhex, !hex_digit_is_lower_hex; [ reflexivity | | ].
  - apply Z.mod_pos_bound. lia.
  - split; [ apply Z.div_pos; lia | apply Z.div_lt_upper_bound; lia ].
Qed.

(** X8. Whatever the conversation and the model (any code points, surrogates
    included), [get_cache_key] produces a key, and the key is 32
    characters, each one of [0-9a-f]. *)
Theorem cache_key_is_32_hex_digits
    (messages : list message) (session_id : option pystr) (model : pystr) :
  exists key,
    get_cache_key messages session_id model = Some key
    /\ length key = 32%nat
    /\ forallb is_lower_hex key = true.
Proof.
  rewrite get_cache_key_fingerprint. eexists. split; [ reflexivity | ].
  unfold fingerprint, MD5.hexdigest.
  destruct (digest_bytes (map Z.of_N (Json.dumps_cache_data messages model)))
    as [Hlen Hrange].
  destruct (hex_bytes_format _ Hrange) as [H1 H2].
  split; [ rewrite H1, Hlen; reflexivity | exact H2 ].
Qed.

Lemma get_cached_response_frame (now : Z) (key : pystr) (w : world) :
  exists r w1,
    get_cached_response now key w = (Returned r, w1)
    /\ (forall k, k <> key -> api_cache w1 !! k = api_cache w !! k)
    /\ (r = None -> api_cache w1 !! key = None)
    /\ filter is_post (trace w1) = filter is_post (trace w).
Proof.
  destruct (api_cache w !! key) as [e | ] eqn:Hk.
  - destruct (fresh now e) eqn:Hf.
    + rewrite (get_cached_response_hit now key w e Hk Hf).
      eexists. eexists. split; [ reflexivity | ].
      split; [ reflexivity | ]. split; [ discriminate | reflexivity ].
    + rewrite (get_cached_response_stale now key w e Hk Hf).
      eexists. eexists. split; [ reflexivity | ]. simpl.
      split; [ intros k Hne; apply lookup_delete_ne; congruence | ].
      split; [ intros _; apply lookup_delete_eq | ].
      rewrite filter_app. simpl. apply app_nil_r.
  - rewrite (get_cached_response_absent now key w Hk).
    eexists. eexists. split; [ reflexivity | ].
    split; [ reflexivity | ]. split; [ intros _; exact Hk | reflexivity ].
Qed.

(** [send_chat_message] after its [try] and [except], branch by branch. *)
Lemma send_chat_message_run (net : request -> outcome http_response)
    (t_lookup t_store : Z) (messages : list message)
    (session_id : option pystr) (model : pystr) (w w1 : world)
    (r : option pydict) :
  get_cached_response t_lookup (fingerprint messages model) w
  = (Returned r, w1) ->
  send_chat_message net t_lookup t_store messages session_id model w
  = match r with
    | Some cached => (Returned cached, w1)
    | None =>
        let w2 := world_after_post (Request messages session_id model) w1 in
        match success_body (Call net t_lookup t_store messages session_id model) with
        | Some body =>
            (Returned body,
             world_after_save
               (<[fingerprint messages model := Entry body t_store]>
                  (api_cache w1))
               (World (<[fingerprint messages model := Entry body t_store]>
                         (api_cache w1))
                      (disk w1) (trace w2)))
        | None =>
            ((send_chat_message net t_lookup t_store messages session_id
                model w).1, w2)
        end
    end.
Proof.
  intros Hget. unfold send_chat_message, try_except, success_body.
  rewrite send_chat_message_try_run, Hget. simpl.
  destruct r as [cached | ]; [ reflexivity | ].
  destruct (net (Request messages session_id model)) as [resp | e].
  - destruct (json_body resp) as [body | e].
    + destruct (status_code resp =? 200); reflexivity.
    + destruct e; destruct (status_code resp =? 200); reflexivity.
  - destruct e; reflexivity.
Qed.

(** X9. A call issues no POST when the lookup finds a response, and exactly
    one, carrying the messages, the session identifier and the model, when
    the lookup returns [None]. *)
Theorem one_post_per_miss_and_none_per_hit
    (net : request -> outcome http_response) (t_lookup t_store : Z)
    (messages : list message) (session_id : option pystr) (model : pystr)
    (w : world) :
  exists r w1,
    get_cached_response t_lookup (fingerprint messages model) w
    = (Returned r, w1)
    /\ filter is_post
         (trace (send_chat_message net t_lookup t_store messages session_id
                   model w).2)
       = filter is_post (trace w)
         ++ match r with
            | Some _ => []
            | None => [HttpPost (Request messages session_id model)]
            end.
Proof.
  destruct (get_cached_response_frame t_lookup (fingerprint messages model) w)
    as [r [w1 [Hget [_ [_ Hposts]]]]].
  exists r, w1. split; [ exact Hget | ].
  rewrite (send_chat_message_run _ _ _ _ _ _ _ _ _ Hget).
  destruct r as [cached | ].
  - simpl. rewrite Hposts, app_nil_r. reflexivity.
  - cbv zeta.
    destruct (success_body
                (Call net t_lookup t_store messages session_id model));
      simpl; rewrite !filter_app, Hposts; simpl; rewrite ?app_nil_r;
      reflexivity.
Qed.

(** X10. A call reads and writes the store only under its own fingerprint:
    every other key keeps its entry, or its absence. *)
Theorem send_chat_message_touches_only_its_key
    (net : request -> outcome http_response) (t_lookup t_store : Z)
    (messages : list message) (session_id : option pystr) (model : pystr)
    (w : world) (k : pystr) :
  k <> fingerprint messages model ->
  api_cache (send_chat_message net t_lookup t_store messages session_id
               model w).2 !! k
  = api_cache w !! k.
Proof.
  intros Hk.
  destruct (get_cached_response_frame t_lookup (fingerprint messages model) w)
    as [r [w1 [Hget [Hframe _]]]].
  rewrite (send_chat_message_run _ _ _ _ _ _ _ _ _ Hget).
  destruct r as [cached | ].
  - simpl. apply Hframe. exact Hk.
  - cbv zeta.
    destruct (success_body
                (Call net t_lookup t_store messages session_id model));
      simpl.
    + rewrite lookup_insert_ne by congruence. apply Hframe. exact Hk.
    + apply Hframe. exact Hk.
Qed.


(** X12. Failures are not remembered: after a call that missed and did not get
    a status-200 decodable answer, the key is absent, so the next call
    with the same messages and model issues a POST again. *)
Theorem failed_request_is_retried
    (net1 net2 : request -> outcome http_response)
    (t1 s1 t2 s2 : Z) (messages : list message)
    (session1 session2 : option pystr) (model : pystr) (w w1 : world) :
  get_cached_response t1 (fingerprint messages model) w = (Returned None, w1) ->
  success_body (Call net1 t1 s1 messages session1 model) = None ->
  let wA := (send_chat_message net1 t1 s1 messages session1 model w).2 in
  api_cache wA !! fingerprint messages model = None
  /\ filter is_post
       (trace (send_chat_message net2 t2 s2 messages session2 model wA).2)
     = filter is_post (trace wA)
       ++ [HttpPost (Request messages session2 model)].
Proof.
  intros Hget Hfail wA.
  assert (api_cache wA !! fingerprint messages model = None) as Habsent.
  { unfold wA. rewrite (send_chat_message_run _ _ _ _ _ _ _ _ _ Hget), Hfail.
    simpl.
    destruct (get_cached_response_frame t1 (fingerprint messages model) w)
      as [r [w1' [Hget' [_ [Hnone _]]]]].
    rewrite Hget in Hget'. injection Hget' as <- <-. apply Hnone. reflexivity. }
  split; [ exact Habsent | ].
  rewrite (send_chat_message_run net2 t2 s2 messages session2 model wA wA None
             (get_cached_response_absent t2 _ wA Habsent)).
  cbv zeta.
  destruct (success_body (Call net2 t2 s2 messages session2 model));
    simpl; rewrite !filter_app; simpl; rewrite ?app_nil_r; reflexivity.
Qed.

Lemma run_call_entry_origin (c : call) (w : world) (k : pystr) (e : entry) :
  api_cache (run_call c w).2 !! k = Some e ->
  api_cache w !! k = Some e
  \/ (k = fingerprint (call_messages c) (call_model c)
      /\ success_body c = Some (response e)
      /\ timestamp e = call_t_store c).
Proof.
  unfold run_call. destruct c as [net t1 t2 ms sid m]. simpl.
  destruct (get_cached_response_returns t1 (fingerprint ms m) w)
    as [r [w1 [Hget [Hsub _]]]].
  rewrite (send_chat_message_run _ _ _ _ _ _ _ _ _ Hget).
  destruct r as [cached | ].
  - simpl. intros Hk. left. apply Hsub. exact Hk.
  - cbv zeta. destruct (success_body (Call net t1 t2 ms sid m)) as [body | ].
    + simpl. intros Hk. apply lookup_insert_Some in Hk.
      destruct Hk as [[<- <-] | [_ Hk]].
      * right. repeat split; reflexivity.
      * left. apply Hsub. exact Hk.
    + simpl. intros Hk. left. apply Hsub. exact Hk.
Qed.

(** X13. From an empty store, whatever the sequence of calls, every entry of
    the store sits under the fingerprint of one of the calls, holds the
    body of the status-200 answer to that call, and is stamped with the
    time at which that call stored it. *)
Theorem cached_entries_come_from_successful_calls
    (cs : list call) (w : world) :
  api_cache w = ∅ ->
  forall k e,
    api_cache (run_calls cs w) !! k = Some e ->
    exists c,
      In c cs
      /\ k = fingerprint (call_messages c) (call_model c)
      /\ success_body c = Some (response e)
      /\ timestamp e = call_t_store c.
Proof.
  intros Hempty.
  assert (forall (done todo : list call) (w0 : world),
             (forall k e, api_cache w0 !! k = Some e ->
                          exists c, In c done
                                    /\ k = fingerprint (call_messages c) (call_model c)
                                    /\ success_body c = Some (response e)
                                    /\ timestamp e = call_t_store c) ->
             forall k e, api_cache (run_calls todo w0) !! k = Some e ->
                         exists c, In c (done ++ todo)
                                   /\ k = fingerprint (call_messages c) (call_model c)
                                   /\ success_body c = Some (response e)
                                   /\ timestamp e = call_t_store c) as Hgen.
  { intros done todo. revert done.
    induction todo as [ | c todo IH]; intros done w0 Hinv k e Hk.
    - simpl in Hk. destruct (Hinv k e Hk) as [c [Hin Hc]].
      exists c. split; [ apply in_or_app; left; exact Hin | exact Hc ].
    - unfold run_calls in Hk. simpl in Hk.
      destruct (IH (done ++ [c]) (run_call c w0).2) with (k := k) (e := e)
        as [c' [Hin Hc']].
      + intros k' e' Hk'. apply run_call_entry_origin in Hk'.
        destruct Hk' as [Hold | Hnew].
        * destruct (Hinv k' e' Hold) as [c0 [Hin0 Hc0]].
          exists c0. split; [ apply in_or_app; left; exact Hin0 | exact Hc0 ].
        * exists c. split; [ apply in_or_app; right; left; reflexivity | ].
          exact Hnew.
      + exact Hk.
      + exists c'. split; [ | exact Hc' ].
        rewrite <- app_assoc in Hin. exact Hin. }
  intros k e Hk. apply (Hgen [] cs w); [ | exact Hk ].
  intros k' e' Hk'. rewrite Hempty, lookup_empty in Hk'. discriminate.
Qed.

(* =================================================================== *)
(** *** Streaming, the model list and clearing *)
(* =================================================================== *)

Lemma split_on_cons (sep : N) (s : pystr) :
  exists w ws, split_on sep s = w :: ws.
Proof.
  induction s as [ | c s [w [ws IH]]]; simpl.
  - eexists. eexists. reflexivity.
  - destruct (c =? sep)%N; [ eexists; eexists; reflexivity | ].
    rewrite IH. eexists. eexists. reflexivity.
Qed.

(** Joining the streamed tokens gives the text back. *)
Lemma concat_stream_words_split (s : pystr) :
  concat (stream_words (split_on 32 s)) = s.
Proof.
  induction s as [ | c s IH]; [ reflexivity | ].
  cbn [split_on]. destruct (split_on_cons 32 s) as [w [ws Hs]].
  rewrite Hs in *. cbn [stream_words map concat] in IH.
  destruct (N.eqb_spec c 32) as [-> | Hne].
  - cbn [stream_words map concat app]. rewrite IH. reflexivity.
  - cbn [stream_words map concat app]. rewrite <- IH. reflexivity.
Qed.

Lemma length_split_on (s : pystr) :
  length (split_on 32 s) = S (count_char 32 s).
Proof.
  induction s as [ | c s IH]; [ reflexivity | ].
  cbn [split_on count_char]. destruct (split_on_cons 32 s) as [w [ws Hs]].
  rewrite Hs in *. destruct (c =? 32)%N; simpl in *; lia.
Qed.

Lemma length_stream_words (ws : list pystr) :
  length (stream_words ws) = length ws.
Proof.
  destruct ws as [ | w ws]; [ reflexivity | ].
  simpl. rewrite length_map. reflexivity.
Qed.

(** X14. For a response that is not an error and whose ["message"] is a
    non-empty string, the tokens streamed into the message spell that
    string exactly when joined (one token per space-separated piece, empty
    pieces included), and the response is returned as it came. *)
Theorem streamed_tokens_spell_the_message
    (net : request -> outcome http_response) (t_lookup t_store : Z)
    (messages : list message) (session_id : option pystr) (model : pystr)
    (w w1 : world) (resp : pydict) (s : pystr) :
  send_chat_message net t_lookup t_store messages session_id model w
  = (Returned resp, w1) ->
  status_is_error resp = false ->
  dict_get (py "message") resp = Some (JStr s) ->
  s <> [] ->
  exists tokens,
    send_chat_message_stream net t_lookup t_store messages session_id model
      true w = ((resp, tokens), w1)
    /\ concat tokens = s
    /\ length tokens = S (count_char 32 s).
Proof.
  intros Hsend Hstatus Hmsg Hs.
  unfold send_chat_message_stream, send_chat_message_stream_try.
  rewrite Hsend, Hstatus. cbn [andb negb]. unfold dict_get_default.
  rewrite Hmsg. destruct s as [ | c s]; [ contradiction | ].
  cbn [truthy split_method]. eexists. split; [ reflexivity | ].
  split; [ apply concat_stream_words_split | ].
  rewrite length_stream_words. apply length_split_on.
Qed.

Lemma status_is_error_error_dict (text : pystr) :
  status_is_error (error_dict text) = true.
Proof. reflexivity. Qed.

Lemma dict_get_error_error_dict (text : pystr) :
  dict_get (py "error") (error_dict text) = Some (JStr text).
Proof. reflexivity. Qed.

(** X15. Streaming passes the response of [send_chat_message] through. Without
    a message to stream into, nothing is emitted. With one: a response
    with no ["message"], or an empty or otherwise false one, is announced
    by the single token ["No message content received."]; a failure
    dictionary built by [send_chat_message] is announced by the single
    token made of the cross mark, [" Error: "] and its error text. *)
Theorem stream_passes_the_response_through
    (net : request -> outcome http_response) (t_lookup t_store : Z)
    (messages : list message) (session_id : option pystr) (model : pystr)
    (w w1 : world) (resp : pydict) :
  send_chat_message net t_lookup t_store messages session_id model w
  = (Returned resp, w1) ->
  send_chat_message_stream net t_lookup t_store messages session_id model
    false w = ((resp, []), w1)
  /\ (status_is_error resp = false ->
      truthy (dict_get_default (py "message") (JStr []) resp) = false ->
      send_chat_message_stream net t_lookup t_store messages session_id
        model true w
      = ((resp, [py "No message content received."]), w1))
  /\ (forall text,
        resp = error_dict text ->
        send_chat_message_stream net t_lookup t_store messages session_id
          model true w
        = ((resp, [[10060%N] ++ py " Error: " ++ text]), w1)).
Proof.
  intros Hsend.
  unfold send_chat_message_stream, send_chat_message_stream_try.
  rewrite Hsend. split; [ reflexivity | ]. split.
  - intros Hstatus Hfalse. rewrite Hstatus. cbn [andb negb].
    rewrite Hfalse. reflexivity.
  - intros text ->. rewrite status_is_error_error_dict. cbn [andb negb].
    unfold dict_get_default. rewrite dict_get_error_error_dict. reflexivity.
Qed.

(** X16. A response that is not an error but whose ["message"] is a true value
    other than a string (a number, [true], a non-empty list or object)
    makes the streaming fail inside: [split] does not exist on it, the
    exception is caught, and an error dictionary is returned instead of
    the response, its text being also the only token. The world is the one
    [send_chat_message] left, so such a response stays cached. *)
Theorem non_string_message_is_reported_as_error
    (net : request -> outcome http_response) (t_lookup t_store : Z)
    (messages : list message) (session_id : option pystr) (model : pystr)
    (w w1 : world) (resp : pydict) (v : json) :
  send_chat_message net t_lookup t_store messages session_id model w
  = (Returned resp, w1) ->
  status_is_error resp = false ->
  dict_get (py "message") resp = Some v ->
  truthy v = true ->
  (forall s, v <> JStr s) ->
  let error_msg :=
    py "An error occurred: "
      ++ (py "'" ++ type_name v ++ py "' object has no attribute 'split'") in
  send_chat_message_stream net t_lookup t_store messages session_id model
    true w = ((error_dict error_msg, [error_msg]), w1).
Proof.
  intros Hsend Hstatus Hmsg Htrue Hnot error_msg.
  unfold send_chat_message_stream, send_chat_message_stream_try.
  rewrite Hsend, Hstatus. cbn [andb negb]. unfold dict_get_default.
  rewrite Hmsg, Htrue.
  destruct v as [ | b | z | bits | s | items | fields];
    try reflexivity.
  exfalso. apply (Hnot s). reflexivity.
Qed.

Lemma truthy_app_literal (a b : pystr) :
  a <> [] -> truthy (JStr (a ++ b)) = true.
Proof. destruct a; [ contradiction | reflexivity ]. Qed.

Lemma models_error_degrades (text : pystr) :
  text <> [] ->
  available_models (models_error text) = fallback_models
  /\ models_warning (models_error text) = true.
Proof.
  intros Htext. split; [ reflexivity | ].
  unfold models_warning, models_error.
  change (dict_get (py "error")
            [(py "error", JStr text); (py "models", fallback_models)])
    with (Some (JStr text)).
  destruct text; [ contradiction | reflexivity ].
Qed.

(** X17. The model list degrades to the default. When the GET fails in
    transport, is answered with a status other than 200 (whatever the
    body), or is answered with 200 and a body that does not decode, the
    models offered are exactly [{DEFAULT_MODEL: DEFAULT_MODEL}] and a
    warning is shown; for a status other than 200 the error text carries
    the status and the raw body. When a 200 answer decodes to a dictionary
    with neither ["models"] nor ["error"], the same default is offered
    with no warning. *)
Theorem model_list_falls_back_to_default :
  (forall answer : outcome http_response,
      (exists e, answer = Raised e)
      \/ (exists resp, answer = Returned resp /\ status_code resp <> 200)
      \/ (exists resp e, answer = Returned resp /\ json_body resp = Raised e) ->
      available_models (get_available_models answer) = fallback_models
      /\ models_warning (get_available_models answer) = true)
  /\ (forall resp : http_response,
        status_code resp <> 200 ->
        get_available_models (Returned resp)
        = models_error (py "Failed to fetch models: "
                          ++ str_of_int (status_code resp)
                          ++ py " - " ++ text resp))
  /\ (forall (resp : http_response) (d : pydict),
        status_code resp = 200 ->
        json_body resp = Returned d ->
        dict_get (py "models") d = None ->
        dict_get (py "error") d = None ->
        get_available_models (Returned resp) = d
        /\ available_models (get_available_models (Returned resp))
           = fallback_models
        /\ models_warning (get_available_models (Returned resp)) = false).
Proof.
  assert (forall resp : http_response,
             status_code resp <> 200 ->
             get_available_models (Returned resp)
             = models_error (py "Failed to fetch models: "
                               ++ str_of_int (status_code resp)
                               ++ py " - " ++ text resp)) as Hstatus.
  { intros resp Hne. unfold get_available_models, get_available_models_try.
    apply Z.eqb_neq in Hne. rewrite Hne. reflexivity. }
  split; [ | split; [ exact Hstatus | ] ].
  - intros answer [[e ->] | [[resp [-> Hne]] | [resp [e [-> Hjson]]]]].
    + unfold get_available_models, get_available_models_try.
      destruct e; apply models_error_degrades; discriminate.
    + rewrite (Hstatus resp Hne). apply models_error_degrades. discriminate.
    + destruct (Z.eq_dec (status_code resp) 200) as [H200 | Hne].
      * unfold get_available_models, get_available_models_try.
        rewrite H200, Hjson. simpl.
        destruct e; apply models_error_degrades; discriminate.
      * rewrite (Hstatus resp Hne). apply models_error_degrades. discriminate.
  - intros resp d H200 Hjson Hmodels Herror.
    unfold get_available_models, get_available_models_try.
    rewrite H200, Hjson. simpl.
    split; [ reflexivity | ].
    unfold available_models, dict_get_default, models_warning.
    rewrite Hmodels, Herror. split; reflexivity.
Qed.

(** [clear_cache], by the state of the cache file. *)
Lemma clear_cache_run (w : world) :
  clear_cache w
  = match files (disk w) !! CACHE_FILE with
    | None => (Returned (CacheCleared (size (api_cache w))),
               World ∅ (disk w) (trace w))
    | Some _ =>
        if bool_decide (CACHE_FILE ∈ denied (disk w)) then
          (Returned (ClearError (py "PermissionError")),
           World ∅ (disk w) (trace w))
        else
          (Returned (CacheCleared (size (api_cache w))),
           World ∅
             (FileSystem (delete CACHE_FILE (files (disk w))) (denied (disk w)))
             (trace w))
    end.
Proof.
  unfold clear_cache, path_exists, unlink. run.
  destruct (files (disk w) !! CACHE_FILE) as [b | ] eqn:Hf; simpl.
  - destruct (bool_decide (CACHE_FILE ∈ denied (disk w))); simpl.
    + reflexivity.
    + rewrite Hf. reflexivity.
  - reflexivity.
Qed.

(** X18. [clear_cache] never raises and always leaves the store empty, so that
    every lookup afterwards returns [None] and changes nothing. It makes
    no call to the network or to [save_cache_to_file], touches no path
    other than the cache file, and, when the file system lets it, leaves
    no cache file behind and reports the number of entries removed. *)
Theorem clear_cache_empties_the_store (w : world) :
  exists report w',
    clear_cache w = (Returned report, w')
    /\ api_cache w' = ∅
    /\ trace w' = trace w
    /\ (forall p, p <> CACHE_FILE ->
          files (disk w') !! p = files (disk w) !! p)
    /\ (CACHE_FILE ∉ denied (disk w) ->
        files (disk w') !! CACHE_FILE = None
        /\ report = CacheCleared (size (api_cache w)))
    /\ (forall now k, get_cached_response now k w' = (Returned None, w')).
Proof.
  rewrite clear_cache_run.
  destruct (files (disk w) !! CACHE_FILE) as [b | ] eqn:Hf.
  - destruct (bool_decide (CACHE_FILE ∈ denied (disk w))) eqn:Hd.
    + apply bool_decide_eq_true_1 in Hd.
      eexists. eexists. split; [ reflexivity | ]. simpl.
      split; [ reflexivity | ]. split; [ reflexivity | ].
      split; [ reflexivity | ]. split; [ intros Hnot; contradiction | ].
      intros now k. apply get_cached_response_absent. apply lookup_empty.
    + eexists. eexists. split; [ reflexivity | ]. simpl.
      split; [ reflexivity | ]. split; [ reflexivity | ].
      split; [ intros p Hp; apply lookup_delete_ne; congruence | ].
      split; [ intros _; split; [ apply lookup_delete_eq | reflexivity ] | ].
      intros now k. apply get_cached_response_absent. apply lookup_empty.
  - eexists. eexists. split; [ reflexivity | ]. simpl.
    split; [ reflexivity | ]. split; [ reflexivity | ].
    split; [ reflexivity | ].
    split; [ intros _; split; [ exact Hf | reflexivity ] | ].
    intros now k. apply get_cached_response_absent. apply lookup_empty.
Qed.

(** X19. After a [clear_cache] that could remove the cache file, a restarted
    process begins with the empty store and writes nothing. *)
Theorem clear_then_restart_is_empty (now : Z) (w : world) :
  CACHE_FILE ∉ denied (disk w) ->
  exists report w1,
    clear_cache w = (Returned report, w1)
    /\ startup now (restarted w1) = (Returned tt, restarted w1).
Proof.
  intros Hw. rewrite clear_cache_run.
  assert (forall w0 : world,
             files (disk w0) !! CACHE_FILE = None ->
             startup now (restarted w0) = (Returned tt, restarted w0))
    as Hstart.
  { intros w0 Hnone.
    destruct (load_cache_from_file_cases (restarted w0))
      as [c [Hload [Hc _]]].
    rewrite (Hc Hnone) in Hload.
    rewrite (startup_run now (restarted w0) ∅ Hload), cleanup_loop_empty.
    reflexivity. }
  destruct (files (disk w) !! CACHE_FILE) as [b | ] eqn:Hf.
  - rewrite bool_decide_eq_false_2 by exact Hw.
    eexists. eexists. split; [ reflexivity | ].
    apply Hstart. simpl. apply lookup_delete_eq.
  - eexists. eexists. split; [ reflexivity | ].
    apply Hstart. exact Hf.
Qed.

(** X20. [clear_cache] removes the cache file only: the JSON text of the store
    that the last save wrote to [test_reponse.json], cached responses
    included, is still on the disk after the cache has been cleared. *)
Theorem clear_cache_leaves_the_json_dump
    (now : Z) (key : pystr) (resp : pydict) (w : world) :
  CACHE_FILE ∉ denied (disk w) ->
  TEST_RESPONSE_FILE ∉ denied (disk w) ->
  exists w1 report w2,
    set_cached_response now key resp w = (Returned tt, w1)
    /\ clear_cache w1 = (Returned report, w2)
    /\ api_cache w2 = ∅
    /\ files (disk w2) !! CACHE_FILE = None
    /\ files (disk w2) !! TEST_RESPONSE_FILE
       = Some (json_dump (<[key := Entry resp now]> (api_cache w))).
Proof.
  intros Hw1 Hw2. rewrite set_cached_response_run.
  eexists. eexists. eexists. split; [ reflexivity | ].
  rewrite clear_cache_run. simpl. unfold disk_after_save.
  rewrite (bool_decide_eq_false_2 _ Hw1), (bool_decide_eq_false_2 _ Hw2).
  simpl. rewrite lookup_insert_ne by discriminate.
  rewrite lookup_insert_eq. rewrite (bool_decide_eq_false_2 _ Hw1).
  split; [ reflexivity | ]. simpl.
  split; [ reflexivity | ].
  split; [ apply lookup_delete_eq | ].
  rewrite lookup_delete_ne by discriminate. apply lookup_insert_eq.
Qed.

End Store.

Example md5_empty : MD5.hexdigest [] = py "d41d8cd98f00b204e9800998ecf8427e".
Proof. vm_compute. reflexivity. Qed.

Example md5_abc : MD5.hexdigest [97; 98; 99] = py "900150983cd24fb0d6963f7d28e17f72".
Proof. vm_compute. reflexivity. Qed.

Example md5_two_blocks :
  MD5.hexdigest (repeat 97 100) = py "36a92cc94a9e0fa21f625f8bfb007adf".
Proof. vm_compute. reflexivity. Qed.

Example str_of_int_500 : str_of_int 500 = py "500".
Proof. vm_compute. reflexivity. Qed.

Example str_of_int_0 : str_of_int 0 = py "0".
Proof. vm_compute. reflexivity. Qed.

Example key_scenario :
  get_cache_key [Message (py "user") (py "find leads in fintech")] None (py "m1")
  = Some (py "044972e82e872487a6a0921591c2e8b1").
Proof. vm_compute. reflexivity. Qed.

Example key_two_turns :
  Json.dumps_cache_data
    [Message (py "user") (py "a"); Message (py "assistant") (py "b")] (py "m1")
  = py "{" ++ Json.dumps_str (py "messages") ++ py ": [{"
       ++ Json.dumps_str (py "content") ++ py ": " ++ Json.dumps_str (py "a") ++ py ", "
       ++ Json.dumps_str (py "role") ++ py ": " ++ Json.dumps_str (py "user") ++ py "}, {"
       ++ Json.dumps_str (py "content") ++ py ": " ++ Json.dumps_str (py "b") ++ py ", "
       ++ Json.dumps_str (py "role") ++ py ": " ++ Json.dumps_str (py "assistant") ++ py "}], "
       ++ Json.dumps_str (py "model") ++ py ": " ++ Json.dumps_str (py "m1") ++ py "}".
Proof. vm_compute. reflexivity. Qed.

Example escape_controls :
  Json.escape [127; 31; 128; 34; 92; 10; 13; 9; 8; 12; 47]%N
  = [92; 117; 48; 48; 55; 102; 92; 117; 48; 48; 49; 102; 92; 117; 48; 48; 56; 48;
     92; 34; 92; 92; 92; 110; 92; 114; 92; 116; 92; 98; 92; 102; 47]%N.
Proof. vm_compute. reflexivity. Qed.

Example key_surrogates :
  get_cache_key [Message (py "user") [55357; 56832]%N] None (py "m1")
  = Some (py "675d52188d87a90776c7031302800b3f")
  /\ get_cache_key [Message (py "user") [128512]%N] None (py "m1")
  = Some (py "675d52188d87a90776c7031302800b3f").
Proof. vm_compute. split; reflexivity. Qed.

Arguments FileSystem {blob} files denied.
Arguments files {blob} f.
Arguments denied {blob} f.
Arguments World {blob} api_cache disk trace.
Arguments api_cache {blob} w.
Arguments disk {blob} w.
Arguments trace {blob} w.
Arguments load_cache_from_file {blob} pickle_loads w.
Arguments save_cache_to_file {blob} pickle_dumps json_dump cache_data w.
Arguments cleanup_expired_cache {blob} pickle_dumps json_dump current_time cache_data w.
Arguments startup {blob} pickle_dumps pickle_loads json_dump now w.
Arguments get_cached_response {blob} pickle_dumps json_dump now cache_key w.
Arguments set_cached_response {blob} pickle_dumps json_dump now cache_key resp w.
Arguments show_cache_info {blob} blob_size now w.
Arguments send_chat_message {blob} pickle_dumps json_dump net t_lookup t_store
  messages session_id model w.
Arguments world_after_post {blob} payload w.
Arguments run_call {blob} pickle_dumps json_dump c w.
Arguments run_calls {blob} pickle_dumps json_dump cs w.

(* ===================================================================== *)
(** ** The scenarios of the specification, run on the concrete codec *)
(* ===================================================================== *)

(** The indented JSON text of the store, on the concrete codec. *)
Definition demo_json (c : store) : demo_blob := JsonText c.

(** An empty, writable disk and a process that has cached nothing yet. *)
Definition demo_disk : filesystem demo_blob := FileSystem ∅ ∅.
Definition demo_world : world demo_blob := World ∅ demo_disk [].

Definition demo_messages : list message :=
  [Message (py "user") (py "find leads in fintech")].
Definition demo_model : pystr := py "m1".
Definition demo_key : pystr := py "044972e82e872487a6a0921591c2e8b1".
Definition demo_response : pydict := [(py "message", JStr (py "ok"))].

(** A store holding the scenario entry, written at time 0. *)
Definition demo_store : store := {[ demo_key := Entry demo_response 0 ]}.
Definition demo_cached_world : world demo_blob := World demo_store demo_disk [].

(** The raw body whose decoding is [demo_response]. *)
Definition demo_text : pystr :=
  py "{" ++ Json.dumps_str (py "message") ++ py ": "
    ++ Json.dumps_str (py "ok") ++ py "}".

(** Remote sides: one that answers every POST with a given status and the
    scenario body, and one that cannot be reached. *)
Definition demo_net (status : Z) : request -> outcome http_response :=
  fun _ => Returned (HttpResponse status demo_text (Returned demo_response)).
Definition demo_net_down : request -> outcome http_response :=
  fun _ => Raised (RequestException (py "timed out")).

(** Witness of C1: the scenario [set] at [t = 0], [get] at [t = 10]. *)
Lemma set_then_get_before_expiry_witness :
  10 - 0 < CACHE_DURATION
  /\ exists w1,
       set_cached_response demo_dumps demo_json 0 demo_key demo_response demo_world
       = (Returned tt, w1)
       /\ get_cached_response demo_dumps demo_json 10 demo_key w1
          = (Returned (Some demo_response), w1).
Proof.
  split; [ reflexivity | ].
  apply (set_then_get_before_expiry demo_blob demo_dumps demo_json
           demo_key demo_response 0 10 demo_world).
  reflexivity.
Defined.

(** Witness of C2: the scenario [get] at [t = 3601] of the entry written at
    [t = 0]. *)
Lemma expired_entry_evicted_on_get_witness :
  api_cache demo_cached_world !! demo_key = Some (Entry demo_response 0)
  /\ 3601 - timestamp (Entry demo_response 0) >= CACHE_DURATION
  /\ exists w',
       get_cached_response demo_dumps demo_json 3601 demo_key demo_cached_world
       = (Returned None, w')
       /\ api_cache w' = delete demo_key demo_store
       /\ S (size (api_cache w')) = size demo_store.
Proof.
  assert (api_cache demo_cached_world !! demo_key = Some (Entry demo_response 0))
    as Hk by (vm_compute; reflexivity).
  assert (3601 - timestamp (Entry demo_response 0) >= CACHE_DURATION)
    as Hstale by (vm_compute; discriminate).
  split; [ exact Hk | ]. split; [ exact Hstale | ].
  destruct (expired_entry_evicted_on_get demo_blob demo_dumps demo_json demo_size
              demo_key (Entry demo_response 0) 3601 demo_cached_world Hk Hstale)
    as [w' [Hget [Hcache [_ [_ [_ [_ Hinfo]]]]]]].
  exists w'. split; [ exact Hget | ]. split; [ exact Hcache | ].
  destruct (Hinfo 3601) as [info [_ [_ [Hsize _]]]].
  rewrite Hcache. exact Hsize.
Defined.



(** C6, counterexample: a content of two lone surrogates and a content of
    the one character they encode are different messages with the same
    canonical text, hence the same key. *)
Lemma surrogate_pair_collision :
  let ms1 := [Message (py "user") [55357; 56832]%N] in
  let ms2 := [Message (py "user") [128512]%N] in
  bool_decide (ms1 = ms2) = false
  /\ Json.dumps_cache_data ms1 demo_model = Json.dumps_cache_data ms2 demo_model
  /\ get_cache_key ms1 None demo_model = get_cache_key ms2 None demo_model.
Proof. vm_compute. repeat split; reflexivity. Qed.


(** The fingerprint of the scenario conversation. *)
Example demo_key_is_fingerprint :
  get_cache_key demo_messages None demo_model = Some demo_key.
Proof. vm_compute. reflexivity. Qed.

(** A first session misses, posts and caches; a second session with the
    same conversation is then served from the cache although the remote
    side is down: its call adds no POST to the trace. *)
Example second_session_served_from_cache :
  let first := send_chat_message demo_dumps demo_json (demo_net 200) 0 1
                 demo_messages (Some (py "session-a")) demo_model demo_world in
  let second := send_chat_message demo_dumps demo_json demo_net_down 10 11
                  demo_messages (Some (py "session-b")) demo_model first.2 in
  first.1 = Returned demo_response
  /\ api_cache first.2 !! demo_key = Some (Entry demo_response 1)
  /\ second.1 = Returned demo_response
  /\ second.2 = first.2
  /\ filter is_post (trace second.2)
     = [HttpPost (Request demo_messages (Some (py "session-a")) demo_model)].
Proof. vm_compute. repeat split; reflexivity. Qed.

(** Failures of the remote side come back as dictionaries: a transport
    failure, and a 500 whose body is not JSON (the status is then lost). *)
Example failures_are_returned_as_dictionaries :
  (send_chat_message demo_dumps demo_json demo_net_down 0 0
     demo_messages None demo_model demo_world).1
  = Returned (error_dict (py "Network error occurred: timed out"))
  /\ (send_chat_message demo_dumps demo_json
        (fun _ => Returned (HttpResponse 500 (py "Internal Server Error")
                              (Raised (OtherException (py "Expecting value")))))
        0 0 demo_messages None demo_model demo_world).1
     = Returned (error_dict (py "An error occurred: Expecting value")).
Proof. vm_compute. repeat split; reflexivity. Qed.

(** Start-up on a disk whose cache file holds one fresh and one stale
    entry: the stale one is pruned and the pruned store is saved once. *)
Example startup_prunes_and_saves :
  let old := {[ py "fresh" := Entry demo_response 5000;
                py "stale" := Entry demo_response 0 ]} : store in
  let w := World ∅ (FileSystem {[ CACHE_FILE := Pickled old ]} ∅) [] in
  let w' := (startup demo_dumps demo_loads demo_json 6000 w).2 in
  api_cache w' = {[ py "fresh" := Entry demo_response 5000 ]}
  /\ trace w' = [SaveCalled {[ py "fresh" := Entry demo_response 5000 ]}]
  /\ (startup demo_dumps demo_loads demo_json 6000
        (World ∅ (FileSystem {[ CACHE_FILE := Garbage ]} ∅) [])).2
     = World ∅ (FileSystem {[ CACHE_FILE := Garbage ]} ∅) [].
Proof. vm_compute. repeat split; reflexivity. Qed.

Arguments clear_cache {blob} w.
Arguments restarted {blob} w.
Arguments send_chat_message_stream {blob} pickle_dumps json_dump str_of_value
  net t_lookup t_store messages session_id model msg w.

(* ===================================================================== *)
(** ** Further scenarios on the concrete codec *)
(* ===================================================================== *)

(** A stand-in for [str()] on values that are not strings. *)
Definition demo_str_of_value (v : json) : pystr := py "<value>".

(** A disk on which the cache file cannot be opened, and one whose cache
    file does not unpickle. *)
Definition demo_locked_world : world demo_blob :=
  World ∅ (FileSystem ∅ {[ CACHE_FILE ]}) [].
Definition demo_corrupt_world : world demo_blob :=
  World ∅ (FileSystem {[ CACHE_FILE := Garbage ]} ∅) [].

(** Remote sides answering 200 with a given decoded body. *)
Definition demo_net_body (body : pydict) : request -> outcome http_response :=
  fun _ => Returned (HttpResponse 200 demo_text (Returned body)).

Definition demo_spaced_reply : pydict :=
  [(py "message", JStr (py "hello big  world"))].
Definition demo_numeric_reply : pydict := [(py "message", JInt 42)].

(** Witness of X1. *)
Lemma hits_do_not_extend_lifetime_witness :
  3000 - 0 < CACHE_DURATION
  /\ 3601 - 0 >= CACHE_DURATION
  /\ exists w1 w2,
       set_cached_response demo_dumps demo_json 0 demo_key demo_response demo_world
       = (Returned tt, w1)
       /\ get_cached_response demo_dumps demo_json 3000 demo_key w1
          = (Returned (Some demo_response), w1)
       /\ get_cached_response demo_dumps demo_json 3601 demo_key w1
          = (Returned None, w2)
       /\ api_cache w2 !! demo_key = None.
Proof.
  assert (3000 - 0 < CACHE_DURATION) as H1 by reflexivity.
  assert (3601 - 0 >= CACHE_DURATION) as H2 by (vm_compute; discriminate).
  split; [ exact H1 | ]. split; [ exact H2 | ].
  exact (hits_do_not_extend_lifetime demo_blob demo_dumps demo_json demo_key
           demo_response 0 3000 3601 demo_world H1 H2).
Defined.

(** Witness of X3. *)
Lemma restart_reproduces_hit_witness :
  (forall c : store, demo_loads (demo_dumps c) = Some c)
  /\ (CACHE_FILE ∉ denied (disk demo_world))
  /\ 100 - 0 < CACHE_DURATION
  /\ 200 - 0 < CACHE_DURATION
  /\ exists w1 w2,
       set_cached_response demo_dumps demo_json 0 demo_key demo_response demo_world
       = (Returned tt, w1)
       /\ startup demo_dumps demo_loads demo_json 100 (restarted w1)
          = (Returned tt, w2)
       /\ get_cached_response demo_dumps demo_json 200 demo_key w2
          = (Returned (Some demo_response), w2).
Proof.
  assert (forall c : store, demo_loads (demo_dumps c) = Some c) as H0
    by (intros c; reflexivity).
  assert (CACHE_FILE ∉ denied (disk demo_world)) as H1
    by (vm_compute; intros H; discriminate H).
  assert (100 - 0 < CACHE_DURATION) as H2 by reflexivity.
  assert (200 - 0 < CACHE_DURATION) as H3 by reflexivity.
  split; [ exact H0 | ]. split; [ exact H1 | ].
  split; [ exact H2 | ]. split; [ exact H3 | ].
  exact (restart_reproduces_hit demo_blob demo_dumps demo_loads demo_json
           demo_key demo_response 0 100 200 demo_world H0 H1 H2 H3).
Defined.

(** Witness of X4. *)
Lemma unwritable_cache_file_keeps_memory_authoritative_witness :
  CACHE_FILE ∈ denied (disk demo_locked_world)
  /\ 10 - 0 < CACHE_DURATION
  /\ exists w1,
       set_cached_response demo_dumps demo_json 0 demo_key demo_response
         demo_locked_world = (Returned tt, w1)
       /\ disk w1 = disk demo_locked_world
       /\ get_cached_response demo_dumps demo_json 10 demo_key w1
          = (Returned (Some demo_response), w1).
Proof.
  assert (CACHE_FILE ∈ denied (disk demo_locked_world)) as H1
    by (apply elem_of_singleton; reflexivity).
  assert (10 - 0 < CACHE_DURATION) as H2 by reflexivity.
  split; [ exact H1 | ]. split; [ exact H2 | ].
  exact (unwritable_cache_file_keeps_memory_authoritative demo_blob demo_dumps
           demo_json demo_key demo_response 0 10 demo_locked_world H1 H2).
Defined.

(** Witness of X6. *)
Lemma startup_without_usable_file_witness :
  (files (disk demo_corrupt_world) !! CACHE_FILE = None
   \/ CACHE_FILE ∈ denied (disk demo_corrupt_world)
   \/ exists b, files (disk demo_corrupt_world) !! CACHE_FILE = Some b
                /\ demo_loads b = None)
  /\ startup demo_dumps demo_loads demo_json 0 demo_corrupt_world
     = (Returned tt,
        World ∅ (disk demo_corrupt_world) (trace demo_corrupt_world)).
Proof.
  assert (files (disk demo_corrupt_world) !! CACHE_FILE = None
          \/ CACHE_FILE ∈ denied (disk demo_corrupt_world)
          \/ exists b, files (disk demo_corrupt_world) !! CACHE_FILE = Some b
                       /\ demo_loads b = None) as H.
  { right. right. exists Garbage. split; [ vm_compute; reflexivity | reflexivity ]. }
  split; [ exact H | ].
  exact (startup_without_usable_file demo_blob demo_dumps demo_loads demo_json
           0 demo_corrupt_world H).
Defined.

(** Witness of X10. *)
Lemma send_chat_message_touches_only_its_key_witness :
  py "another key" <> fingerprint demo_messages demo_model
  /\ api_cache (send_chat_message demo_dumps demo_json (demo_net 200) 10 11
                  demo_messages None demo_model demo_cached_world).2
       !! py "another key"
     = api_cache demo_cached_world !! py "another key".
Proof.
  assert (py "another key" <> fingerprint demo_messages demo_model) as H
    by (intros Heq; vm_compute in Heq; discriminate Heq).
  split; [ exact H | ].
  exact (send_chat_message_touches_only_its_key demo_blob demo_dumps demo_json
           (demo_net 200) 10 11 demo_messages None demo_model
           demo_cached_world (py "another key") H).
Defined.


(** Witness of X12. *)
Lemma failed_request_is_retried_witness :
  get_cached_response demo_dumps demo_json 0
    (fingerprint demo_messages demo_model) demo_world
  = (Returned None, demo_world)
  /\ success_body (Call demo_net_down 0 1 demo_messages None demo_model) = None
  /\ api_cache (send_chat_message demo_dumps demo_json demo_net_down 0 1
                  demo_messages None demo_model demo_world).2
       !! fingerprint demo_messages demo_model = None
  /\ filter is_post
       (trace (send_chat_message demo_dumps demo_json (demo_net 200) 10 11
                 demo_messages None demo_model
                 (send_chat_message demo_dumps demo_json demo_net_down 0 1
                    demo_messages None demo_model demo_world).2).2)
     = filter is_post
         (trace (send_chat_message demo_dumps demo_json demo_net_down 0 1
                   demo_messages None demo_model demo_world).2)
       ++ [HttpPost (Request demo_messages None demo_model)].
Proof.
  assert (get_cached_response demo_dumps demo_json 0
            (fingerprint demo_messages demo_model) demo_world
          = (Returned None, demo_world)) as H1 by (vm_compute; reflexivity).
  split; [ exact H1 | ]. split; [ reflexivity | ].
  exact (failed_request_is_retried demo_blob demo_dumps demo_json
           demo_net_down (demo_net 200) 0 1 10 11 demo_messages None None
           demo_model demo_world demo_world H1 eq_refl).
Defined.

(** Witness of X14. *)
Lemma streamed_tokens_spell_the_message_witness :
  let sent := send_chat_message demo_dumps demo_json
                (demo_net_body demo_spaced_reply) 0 1 demo_messages None
                demo_model demo_world in
  sent = (Returned demo_spaced_reply, sent.2)
  /\ status_is_error demo_spaced_reply = false
  /\ dict_get (py "message") demo_spaced_reply
     = Some (JStr (py "hello big  world"))
  /\ py "hello big  world" <> []
  /\ exists tokens,
       send_chat_message_stream demo_dumps demo_json demo_str_of_value
         (demo_net_body demo_spaced_reply) 0 1 demo_messages None demo_model
         true demo_world
       = ((demo_spaced_reply, tokens), sent.2)
       /\ concat tokens = py "hello big  world"
       /\ length tokens = S (count_char 32 (py "hello big  world")).
Proof.
  cbv zeta.
  assert (send_chat_message demo_dumps demo_json
            (demo_net_body demo_spaced_reply) 0 1 demo_messages None
            demo_model demo_world
          = (Returned demo_spaced_reply,
             (send_chat_message demo_dumps demo_json
                (demo_net_body demo_spaced_reply) 0 1 demo_messages None
                demo_model demo_world).2)) as H1 by (vm_compute; reflexivity).
  assert (py "hello big  world" <> []) as H4 by discriminate.
  split; [ exact H1 | ]. split; [ reflexivity | ]. split; [ reflexivity | ].
  split; [ exact H4 | ].
  exact (streamed_tokens_spell_the_message demo_blob demo_dumps demo_json
           demo_str_of_value (demo_net_body demo_spaced_reply) 0 1
           demo_messages None demo_model demo_world _ demo_spaced_reply
           (py "hello big  world") H1 eq_refl eq_refl H4).
Defined.

(** Witness of X15. *)
Lemma stream_passes_the_response_through_witness :
  let sent := send_chat_message demo_dumps demo_json demo_net_down 0 1
                demo_messages None demo_model demo_world in
  sent = (Returned (error_dict (py "Network error occurred: timed out")), sent.2)
  /\ send_chat_message_stream demo_dumps demo_json demo_str_of_value
       demo_net_down 0 1 demo_messages None demo_model false demo_world
     = ((error_dict (py "Network error occurred: timed out"), []), sent.2)
  /\ send_chat_message_stream demo_dumps demo_json demo_str_of_value
       demo_net_down 0 1 demo_messages None demo_model true demo_world
     = ((error_dict (py "Network error occurred: timed out"),
         [[10060%N] ++ py " Error: " ++ py "Network error occurred: timed out"]),
        sent.2).
Proof.
  cbv zeta.
  assert (send_chat_message demo_dumps demo_json demo_net_down 0 1
            demo_messages None demo_model demo_world
          = (Returned (error_dict (py "Network error occurred: timed out")),
             (send_chat_message demo_dumps demo_json demo_net_down 0 1
                demo_messages None demo_model demo_world).2)) as H1
    by (vm_compute; reflexivity).
  split; [ exact H1 | ].
  destruct (stream_passes_the_response_through demo_blob demo_dumps demo_json
              demo_str_of_value demo_net_down 0 1 demo_messages None
              demo_model demo_world _ _ H1) as [Hnone [_ Herr]].
  split; [ exact Hnone | ].
  exact (Herr (py "Network error occurred: timed out") eq_refl).
Defined.

(** Witness of X16. *)
Lemma non_string_message_is_reported_as_error_witness :
  let sent := send_chat_message demo_dumps demo_json
                (demo_net_body demo_numeric_reply) 0 1 demo_messages None
                demo_model demo_world in
  sent = (Returned demo_numeric_reply, sent.2)
  /\ status_is_error demo_numeric_reply = false
  /\ dict_get (py "message") demo_numeric_reply = Some (JInt 42)
  /\ truthy (JInt 42) = true
  /\ (forall s, JInt 42 <> JStr s)
  /\ send_chat_message_stream demo_dumps demo_json demo_str_of_value
       (demo_net_body demo_numeric_reply) 0 1 demo_messages None demo_model
       true demo_world
     = ((error_dict
           (py "An error occurred: "
              ++ (py "'" ++ type_name (JInt 42)
                    ++ py "' object has no attribute 'split'")),
         [py "An error occurred: "
            ++ (py "'" ++ type_name (JInt 42)
                  ++ py "' object has no attribute 'split'")]),
        sent.2)
  /\ api_cache sent.2 !! demo_key = Some (Entry demo_numeric_reply 1).
Proof.
  cbv zeta.
  assert (send_chat_message demo_dumps demo_json
            (demo_net_body demo_numeric_reply) 0 1 demo_messages None
            demo_model demo_world
          = (Returned demo_numeric_reply,
             (send_chat_message demo_dumps demo_json
                (demo_net_body demo_numeric_reply) 0 1 demo_messages None
                demo_model demo_world).2)) as H1 by (vm_compute; reflexivity).
  assert (forall s, JInt 42 <> JStr s) as H5 by (intros s; discriminate).
  split; [ exact H1 | ]. split; [ reflexivity | ]. split; [ reflexivity | ].
  split; [ reflexivity | ]. split; [ exact H5 | ].
  split; [ | vm_compute; reflexivity ].
  exact (non_string_message_is_reported_as_error demo_blob demo_dumps demo_json
           demo_str_of_value (demo_net_body demo_numeric_reply) 0 1
           demo_messages None demo_model demo_world _ demo_numeric_reply
           (JInt 42) H1 eq_refl eq_refl eq_refl H5).
Defined.

(** Witness of X19. *)
Lemma clear_then_restart_is_empty_witness :
  (CACHE_FILE ∉ denied (disk demo_cached_world))
  /\ exists report w1,
       clear_cache demo_cached_world = (Returned report, w1)
       /\ startup demo_dumps demo_loads demo_json 0 (restarted w1)
          = (Returned tt, restarted w1).
Proof.
  assert (CACHE_FILE ∉ denied (disk demo_cached_world)) as H
    by (vm_compute; intros H; discriminate H).
  split; [ exact H | ].
  exact (clear_then_restart_is_empty demo_blob demo_dumps demo_loads demo_json
           0 demo_cached_world H).
Defined.

(** Witness of X20. *)
Lemma clear_cache_leaves_the_json_dump_witness :
  (CACHE_FILE ∉ denied (disk demo_world))
  /\ (TEST_RESPONSE_FILE ∉ denied (disk demo_world))
  /\ exists w1 report w2,
       set_cached_response demo_dumps demo_json 0 demo_key demo_response demo_world
       = (Returned tt, w1)
       /\ clear_cache w1 = (Returned report, w2)
       /\ api_cache w2 = ∅
       /\ files (disk w2) !! CACHE_FILE = None
       /\ files (disk w2) !! TEST_RESPONSE_FILE
          = Some (demo_json (<[demo_key := Entry demo_response 0]>
                               (api_cache demo_world))).
Proof.
  assert (CACHE_FILE ∉ denied (disk demo_world)) as H1
    by (vm_compute; intros H; discriminate H).
  assert (TEST_RESPONSE_FILE ∉ denied (disk demo_world)) as H2
    by (vm_compute; intros H; discriminate H).
  split; [ exact H1 | ]. split; [ exact H2 | ].
  exact (clear_cache_leaves_the_json_dump demo_blob demo_dumps demo_json 0
           demo_key demo_response demo_world H1 H2).
Defined.

(** Witness of X13. *)
Lemma cached_entries_come_from_successful_calls_witness :
  api_cache demo_world = ∅
  /\ forall k e,
       api_cache (run_calls demo_dumps demo_json
                    [Call demo_net_down 0 1 demo_messages None demo_model;
                     Call (demo_net 200) 10 11 demo_messages None demo_model]
                    demo_world) !! k = Some e ->
       exists c,
         In c [Call demo_net_down 0 1 demo_messages None demo_model;
               Call (demo_net 200) 10 11 demo_messages None demo_model]
         /\ k = fingerprint (call_messages c) (call_model c)
         /\ success_body c = Some (response e)
         /\ timestamp e = call_t_store c.
Proof.
  split; [ reflexivity | ].
  exact (cached_entries_come_from_successful_calls demo_blob demo_dumps
           demo_json
           [Call demo_net_down 0 1 demo_messages None demo_model;
            Call (demo_net 200) 10 11 demo_messages None demo_model]
           demo_world eq_refl).
Defined.

(** The tokens of a reply with a double space, as streamed. *)
Example streamed_tokens_of_spaced_reply :
  (send_chat_message_stream demo_dumps demo_json demo_str_of_value
     (demo_net_body demo_spaced_reply) 0 1 demo_messages None demo_model
     true demo_world).1.2
  = [py "hello"; py " big"; py " "; py " world"].
Proof. vm_compute. reflexivity. Qed.
